(** * NFC backend: the complaint lifecycle engine

    A shallow embedding of the complaint model (models/Complaint), the
    complaint service (services/complaintService), the complaint controller
    (controllers/complaintController), the validators of the complaint
    routes (routes/complaintRoutes.js) and the notification helper
    (utils/notificationHelper).

    JavaScript values are modelled as follows.  An ObjectId and every other
    string is a [string]; a field that may be [undefined] is an [option];
    a Mongoose nested path ([feedback], [escalation]) is a record whose
    fields are options, since Mongoose always materialises the nested
    object; [new Date()] reads the clock of the environment; a Mongoose
    collection is the list of its documents in insertion order; a thrown
    [Error] is a value of [Error] below, carried by the error monad [M]. *)

From Stdlib Require Import ZArith List String Ascii Bool Lia Arith.
Import ListNotations.

#[local] Open Scope string_scope.
#[local] Open Scope Z_scope.

(** ** JavaScript strings *)

Module Js.

Definition digit (n : Z) : ascii :=
  ascii_of_nat (48 + Z.to_nat (n mod 10)).

(** Decimal digits of a non-negative number, least significant digit
    produced first and pushed in front of the accumulator. *)
Fixpoint digits (fuel : nat) (n : Z) (acc : string) : string :=
  match fuel with
  | O => acc
  | S fuel' =>
      let acc' := String (digit n) acc in
      if n <? 10 then acc' else digits fuel' (n / 10) acc'
  end.

(** [Number.prototype.toString()] on an integer. *)
Definition toString (n : Z) : string :=
  if n <? 0
  then String "-" (digits (S (Z.to_nat (Z.log2 (- n)))) (- n) "")
  else digits (S (Z.to_nat (Z.log2 n))) n "".

Fixpoint repeat0 (k : nat) : string :=
  match k with
  | O => ""
  | S k' => String "0" (repeat0 k')
  end.

(** [s.padStart(width, "0")]. *)
Definition padStart (width : nat) (s : string) : string :=
  repeat0 (width - String.length s) ++ s.

(** [s.slice(-2)]: the last two characters, or all of [s] when shorter. *)
Definition slice_last2 (s : string) : string :=
  substring (String.length s - 2) 2 s.

(** Truthiness of a string that may be [undefined]. *)
Definition truthy (o : option string) : bool :=
  match o with
  | Some s => negb (s =? "")%string
  | None => false
  end.

(** [o || dflt] on a string that may be [undefined]. *)
Definition or_else (o : option string) (dflt : string) : string :=
  match o with
  | Some s => if (s =? "")%string then dflt else s
  | None => dflt
  end.

End Js.

Example toString_2023 : Js.toString 2023 = "2023".
Proof. reflexivity. Qed.

Example toString_0 : Js.toString 0 = "0".
Proof. reflexivity. Qed.

Example padStart_7 : Js.padStart 4 (Js.toString 7) = "0007".
Proof. reflexivity. Qed.

Example padStart_12345 : Js.padStart 4 (Js.toString 12345) = "12345".
Proof. reflexivity. Qed.

Example slice_2023 : Js.slice_last2 (Js.toString 2023) = "23".
Proof. reflexivity. Qed.

Example slice_short : Js.slice_last2 "7" = "7".
Proof. reflexivity. Qed.

(** ** Dates

    A [Date] is kept in local time as the number of months since year 0
    and the milliseconds elapsed in its month, which is all the code reads. *)

Record Date := mkDate { months : Z; millis : N }.

Definition getFullYear (d : Date) : Z := months d / 12.

(** [getMonth()] is zero-based. *)
Definition getMonth (d : Date) : Z := months d mod 12.

(** [new Date(y, m, 1)]: local midnight on the first day of month [m] of
    year [y]; a month index of 12 rolls over into the next year. *)
Definition firstOfMonth (y m : Z) : Date := mkDate (y * 12 + m) 0.

Definition Date_leb (a b : Date) : bool :=
  (months a <? months b) || ((months a =? months b) && (millis a <=? millis b)%N).

Definition Date_ltb (a b : Date) : bool :=
  (months a <? months b) || ((months a =? months b) && (millis a <? millis b)%N).

(** ** The complaint document (models/Complaint) *)

Definition ObjectId := string.

Inductive Status :=
| pending | assigned | resolved | closed | escalated | finalResolution.

Definition Status_eqb (a b : Status) : bool :=
  match a, b with
  | pending, pending | assigned, assigned | resolved, resolved
  | closed, closed | escalated, escalated
  | finalResolution, finalResolution => true
  | _, _ => false
  end.

Definition Status_name (s : Status) : string :=
  match s with
  | pending => "pending"
  | assigned => "assigned"
  | resolved => "resolved"
  | closed => "closed"
  | escalated => "escalated"
  | finalResolution => "finalResolution"
  end.

Record Feedback := mkFeedback {
  rating : option Z;
  comment : option string;
  submittedAt : option Date
}.

Record Escalation := mkEscalation {
  escalatedAt : option Date;
  reason : option string;
  appellateAuthority : option ObjectId;
  finalResolutionText : option string;   (* escalation.finalResolution *)
  finalResolvedAt : option Date
}.

Record HistoryEntry := mkHistoryEntry {
  h_status : Status;
  updatedBy : ObjectId;
  timestamp : Date;
  notes : option string
}.

Record Complaint := mkComplaint {
  _id : ObjectId;
  complaintId : string;
  userId : ObjectId;
  resourceId : string;
  category : string;
  subcategory : string;
  description : string;
  images : list string;
  status : Status;
  assignedAgency : option ObjectId;
  assignedStaff : option ObjectId;
  assignedAt : option Date;
  resolvedAt : option Date;
  closedAt : option Date;
  feedback : Feedback;
  escalation : Escalation;
  resolutionNotes : option string;
  history : list HistoryEntry;
  createdAt : Date
}.

Definition noFeedback : Feedback := mkFeedback None None None.
Definition noEscalation : Escalation := mkEscalation None None None None None.

(** Field updates, one per assignment the service performs. *)

Definition set_status (s : Status) (c : Complaint) : Complaint :=
  mkComplaint (_id c) (complaintId c) (userId c) (resourceId c) (category c)
    (subcategory c) (description c) (images c) s (assignedAgency c)
    (assignedStaff c) (assignedAt c) (resolvedAt c) (closedAt c) (feedback c)
    (escalation c) (resolutionNotes c) (history c) (createdAt c).

Definition set_complaintId (i : string) (c : Complaint) : Complaint :=
  mkComplaint (_id c) i (userId c) (resourceId c) (category c)
    (subcategory c) (description c) (images c) (status c) (assignedAgency c)
    (assignedStaff c) (assignedAt c) (resolvedAt c) (closedAt c) (feedback c)
    (escalation c) (resolutionNotes c) (history c) (createdAt c).

Definition set_assignedAgency (a : option ObjectId) (c : Complaint) : Complaint :=
  mkComplaint (_id c) (complaintId c) (userId c) (resourceId c) (category c)
    (subcategory c) (description c) (images c) (status c) a
    (assignedStaff c) (assignedAt c) (resolvedAt c) (closedAt c) (feedback c)
    (escalation c) (resolutionNotes c) (history c) (createdAt c).

Definition set_assignedStaff (a : option ObjectId) (c : Complaint) : Complaint :=
  mkComplaint (_id c) (complaintId c) (userId c) (resourceId c) (category c)
    (subcategory c) (description c) (images c) (status c) (assignedAgency c)
    a (assignedAt c) (resolvedAt c) (closedAt c) (feedback c)
    (escalation c) (resolutionNotes c) (history c) (createdAt c).

Definition set_assignedAt (d : option Date) (c : Complaint) : Complaint :=
  mkComplaint (_id c) (complaintId c) (userId c) (resourceId c) (category c)
    (subcategory c) (description c) (images c) (status c) (assignedAgency c)
    (assignedStaff c) d (resolvedAt c) (closedAt c) (feedback c)
    (escalation c) (resolutionNotes c) (history c) (createdAt c).

Definition set_resolvedAt (d : option Date) (c : Complaint) : Complaint :=
  mkComplaint (_id c) (complaintId c) (userId c) (resourceId c) (category c)
    (subcategory c) (description c) (images c) (status c) (assignedAgency c)
    (assignedStaff c) (assignedAt c) d (closedAt c) (feedback c)
    (escalation c) (resolutionNotes c) (history c) (createdAt c).

Definition set_closedAt (d : option Date) (c : Complaint) : Complaint :=
  mkComplaint (_id c) (complaintId c) (userId c) (resourceId c) (category c)
    (subcategory c) (description c) (images c) (status c) (assignedAgency c)
    (assignedStaff c) (assignedAt c) (resolvedAt c) d (feedback c)
    (escalation c) (resolutionNotes c) (history c) (createdAt c).

Definition set_feedback (f : Feedback) (c : Complaint) : Complaint :=
  mkComplaint (_id c) (complaintId c) (userId c) (resourceId c) (category c)
    (subcategory c) (description c) (images c) (status c) (assignedAgency c)
    (assignedStaff c) (assignedAt c) (resolvedAt c) (closedAt c) f
    (escalation c) (resolutionNotes c) (history c) (createdAt c).

Definition set_escalation (e : Escalation) (c : Complaint) : Complaint :=
  mkComplaint (_id c) (complaintId c) (userId c) (resourceId c) (category c)
    (subcategory c) (description c) (images c) (status c) (assignedAgency c)
    (assignedStaff c) (assignedAt c) (resolvedAt c) (closedAt c) (feedback c)
    e (resolutionNotes c) (history c) (createdAt c).

Definition set_resolutionNotes (n : option string) (c : Complaint) : Complaint :=
  mkComplaint (_id c) (complaintId c) (userId c) (resourceId c) (category c)
    (subcategory c) (description c) (images c) (status c) (assignedAgency c)
    (assignedStaff c) (assignedAt c) (resolvedAt c) (closedAt c) (feedback c)
    (escalation c) n (history c) (createdAt c).

(** [complaint.history.push(entry)]. *)
Definition history_push (e : HistoryEntry) (c : Complaint) : Complaint :=
  mkComplaint (_id c) (complaintId c) (userId c) (resourceId c) (category c)
    (subcategory c) (description c) (images c) (status c) (assignedAgency c)
    (assignedStaff c) (assignedAt c) (resolvedAt c) (closedAt c) (feedback c)
    (escalation c) (resolutionNotes c) (history c ++ [e]) (createdAt c).

Definition set_appellateAuthority (a : option ObjectId) (e : Escalation) : Escalation :=
  mkEscalation (escalatedAt e) (reason e) a (finalResolutionText e) (finalResolvedAt e).

Definition set_finalResolution (r : option string) (e : Escalation) : Escalation :=
  mkEscalation (escalatedAt e) (reason e) (appellateAuthority e) r (finalResolvedAt e).

Definition set_finalResolvedAt (d : option Date) (e : Escalation) : Escalation :=
  mkEscalation (escalatedAt e) (reason e) (appellateAuthority e) (finalResolutionText e) d.

(** ** Users

    models/User is not among the sources; the record holds the fields the
    complaint code reads from a user document. *)

Record User := mkUser {
  u_id : ObjectId;
  name : string;
  role : string;
  department : option string;
  u_status : string
}.

(** ** Errors, effects and the transaction monad *)

(** The errors the complaint code can throw, one constructor per message. *)
Inductive Error :=
| ComplaintNotFound        (* "Complaint not found" *)
| AgencyNotFound           (* "Maintenance agency not found" *)
| StaffNotFound            (* "Maintenance staff not found" *)
| MustBeAssigned           (* "Complaint must be in assigned status to be resolved" *)
| MustBeResolved           (* "Complaint must be resolved before submitting feedback" *)
| OnlyEscalated            (* "Only escalated complaints can receive final resolution" *)
| CastError (path : string)          (* Mongoose: value is not an ObjectId *)
| ValidationFailed (path : string)   (* Mongoose: schema validator failed *)
| DuplicateKey (index : string).     (* MongoDB: unique index violated *)

Definition message (e : Error) : string :=
  match e with
  | ComplaintNotFound => "Complaint not found"
  | AgencyNotFound => "Maintenance agency not found"
  | StaffNotFound => "Maintenance staff not found"
  | MustBeAssigned => "Complaint must be in assigned status to be resolved"
  | MustBeResolved => "Complaint must be resolved before submitting feedback"
  | OnlyEscalated => "Only escalated complaints can receive final resolution"
  | CastError p => "Cast to ObjectId failed for path " ++ p
  | ValidationFailed p => "Complaint validation failed: " ++ p
  | DuplicateKey i => "E11000 duplicate key error index: " ++ i
  end.

(** The specification's [InvalidState]: a transition refused because of the
    complaint's current status. *)
Definition InvalidState (e : Error) : Prop :=
  e = MustBeAssigned \/ e = MustBeResolved \/ e = OnlyEscalated.

(** What an operation does to the outside world, in program order. *)
Inductive Effect :=
| StartTransaction
| Saved (c : Complaint)                 (* complaint.save({ session }) *)
| Notified (recipient : option ObjectId) (title text kind : string) (ref : ObjectId)
| NotifyFailed (recipient : option ObjectId) (title : string)  (* console.error *)
| CommitTransaction
| AbortTransaction.

(** What an operation reads but does not change: the user collection, the
    clock, and whether the notification channel accepts a message. *)
Record Env := mkEnv {
  users : list User;
  now : Date;
  delivers : option ObjectId -> string -> bool
}.

(** The complaint collection as committed, the writes staged in the open
    session, and the effects so far. *)
Record Store := mkStore {
  committed : list Complaint;
  staged : list Complaint;
  trace : list Effect
}.

Definition M (A : Type) : Type := Env -> Store -> (Error + A) * Store.

Definition ret {A} (a : A) : M A := fun _ st => (inr a, st).

Definition bind {A B} (m : M A) (k : A -> M B) : M B :=
  fun env st =>
    match m env st with
    | (inr a, st') => k a env st'
    | (inl e, st') => (inl e, st')
    end.

Definition throw {A} (e : Error) : M A := fun _ st => (inl e, st).

Declare Scope txn_scope.
Delimit Scope txn_scope with txn.
Notation "x <- m ;; k" := (bind m (fun x => k))
  (at level 61, m at next level, right associativity) : txn_scope.
Notation "m ;; k" := (bind m (fun _ => k))
  (at level 61, right associativity) : txn_scope.
#[local] Open Scope txn_scope.

Definition emit (e : Effect) : M unit :=
  fun _ st => (inr tt, mkStore (committed st) (staged st) (trace st ++ [e])).

(** [new Date()]. *)
Definition newDate : M Date := fun env st => (inr (now env), st).

Definition getUsers : M (list User) := fun env st => (inr (users env), st).

Definition getCommitted : M (list Complaint) :=
  fun _ st => (inr (committed st), st).

(** Writing a document into a collection: it replaces the document with
    the same [_id], or is inserted at the end. *)
Fixpoint upsert (c : Complaint) (db : list Complaint) : list Complaint :=
  match db with
  | [] => [c]
  | d :: db' => if (_id d =? _id c)%string then c :: db' else d :: upsert c db'
  end.

Definition commitTransaction : M unit :=
  fun _ st =>
    (inr tt,
     mkStore (fold_left (fun db c => upsert c db) (staged st) (committed st))
       [] (trace st ++ [CommitTransaction])).

Definition abortTransaction : M unit :=
  fun _ st =>
    (inr tt, mkStore (committed st) [] (trace st ++ [AbortTransaction])).

(** [session.startTransaction(); try { body } catch (error) {
    await session.abortTransaction(); throw error; }]. *)
Definition withTransaction {A} (body : M A) : M A :=
  fun env st =>
    match (emit StartTransaction ;; body) env st with
    | (inr a, st') => (inr a, st')
    | (inl e, st') => (inl e, snd (abortTransaction env st'))
    end.

(** ** ObjectId casts and lookups *)

Definition isHex (a : ascii) : bool :=
  let n := nat_of_ascii a in
  ((48 <=? n) && (n <=? 57) || (65 <=? n) && (n <=? 70)
   || (97 <=? n) && (n <=? 102))%nat.

Fixpoint allHex (s : string) : bool :=
  match s with
  | EmptyString => true
  | String a s' => isHex a && allHex s'
  end.

(** A string Mongoose casts to an ObjectId: 24 hexadecimal characters. *)
Definition isObjectId (s : string) : bool :=
  (String.length s =? 24)%nat && allHex s.

(** An ObjectId is twelve bytes; as a string it is their lower-case
    hexadecimal spelling, whatever the case of the string it was cast
    from. *)
Definition lowerHex (a : ascii) : ascii :=
  let n := nat_of_ascii a in
  if ((65 <=? n) && (n <=? 70))%nat then ascii_of_nat (n + 32) else a.

Fixpoint canonicalId (s : string) : ObjectId :=
  match s with
  | EmptyString => EmptyString
  | String a s' => String (lowerHex a) (canonicalId s')
  end.

Definition castObjectId (path : string) (s : string) : M ObjectId :=
  if isObjectId s then ret (canonicalId s) else throw (CastError path).

(** [Complaint.findById(complaintId).session(session)] followed by the
    null check every operation makes. *)
Definition findById (complaintId : string) : M Complaint :=
  id <- castObjectId "_id" complaintId ;;
  db <- getCommitted ;;
  match find (fun c => (_id c =? id)%string) db with
  | Some c => ret c
  | None => throw ComplaintNotFound
  end.

(** [User.findOne({ _id, role: { $in: roles }, status: "approved" })]. *)
Definition findApprovedUser (id : string) (roles : list string) : M (option User) :=
  id' <- castObjectId "_id" id ;;
  us <- getUsers ;;
  ret (find (fun u => (u_id u =? id')%string
                      && existsb (String.eqb (role u)) roles
                      && (u_status u =? "approved")%string) us).

(** [User.find({ role, status: "approved" })], and with a department. *)
Definition approvedWithRole (r : string) (us : list User) : list User :=
  filter (fun u => (role u =? r)%string && (u_status u =? "approved")%string) us.

Definition approvedInDepartment (r dept : string) (us : list User) : list User :=
  filter (fun u => (role u =? r)%string
                   && match department u with
                      | Some d => (d =? dept)%string
                      | None => false
                      end
                   && (u_status u =? "approved")%string) us.

(** ** utils/notificationHelper *)

(** [sendNotification]: the body logs the message and returns [true]; when
    it throws, the [catch] logs the error and returns [false].  Nothing is
    thrown to the caller either way. *)
Definition sendNotification (recipient : option ObjectId)
    (title text kind : string) (ref : ObjectId) : M bool :=
  fun env st =>
    if delivers env recipient title
    then (emit (Notified recipient title text kind ref) ;; ret true) env st
    else (emit (NotifyFailed recipient title) ;; ret false) env st.

(** ** models/Complaint: the pre-save hook and [save] *)

(** [countDocuments({ createdAt: { $gte: from, $lt: to } })]. *)
Definition countCreatedBetween (from to : Date) (db : list Complaint) : Z :=
  Z.of_nat (List.length
    (filter (fun c => Date_leb from (createdAt c) && Date_ltb (createdAt c) to) db)).

(** The identifier the hook builds: [CMP-YY-MM-XXXX]. *)
Definition formatComplaintId (date : Date) (count : Z) : string :=
  let year := Js.slice_last2 (Js.toString (getFullYear date)) in
  let month := Js.padStart 2 (Js.toString (getMonth date + 1)) in
  "CMP-" ++ year ++ "-" ++ month ++ "-" ++ Js.padStart 4 (Js.toString (count + 1)).

(** [complaintSchema.pre("save")]: a new document gets its identifier from
    the number of complaints created in the current month. *)
Definition preSave (isNew : bool) (c : Complaint) : M Complaint :=
  if isNew then
    date <- newDate ;;
    db <- getCommitted ;;
    let count :=
      countCreatedBetween
        (firstOfMonth (getFullYear date) (getMonth date))
        (firstOfMonth (getFullYear date) (getMonth date + 1)) db in
    ret (set_complaintId (formatComplaintId date count) c)
  else ret c.

Definition categoryEnum : list string := ["Electrical"; "Civil"; "Misc"].

(** The validators of the schema, in the order of its paths.  Mongoose's
    [required] on a string rejects the empty string as it rejects
    [undefined]. *)
Definition validate (c : Complaint) : option Error :=
  if (complaintId c =? "")%string then Some (ValidationFailed "complaintId")
  else if negb (isObjectId (resourceId c)) then Some (ValidationFailed "resourceId")
  else if negb (existsb (String.eqb (category c)) categoryEnum)
       then Some (ValidationFailed "category")
  else if (subcategory c =? "")%string then Some (ValidationFailed "subcategory")
  else if (description c =? "")%string then Some (ValidationFailed "description")
  else if (1000 <? String.length (description c))%nat
       then Some (ValidationFailed "description")
  else match rating (feedback c) with
       | Some r => if (r <? 1) || (5 <? r)
                   then Some (ValidationFailed "feedback.rating") else None
       | None => None
       end.

(** The unique indexes of the collection: [_id] and [complaintId]. *)
Definition duplicateKey (c : Complaint) (db : list Complaint) : option Error :=
  if existsb (fun d => (_id d =? _id c)%string) db then Some (DuplicateKey "_id_")
  else if existsb (fun d => (complaintId d =? complaintId c)%string) db
       then Some (DuplicateKey "complaintId_1")
  else None.

(** [complaint.save({ session })].  Mongoose's own validation is the first
    of the pre-save hooks, registered ahead of the schema's: the validators
    run on the document as it stands, then the schema's hook, then the
    unique indexes when the document is inserted, and the write is staged
    in the session. *)
Definition save (isNew : bool) (c : Complaint) : M Complaint :=
  match validate c with
  | Some e => throw e
  | None =>
      c' <- preSave isNew c ;;
      db <- getCommitted ;;
      match (if isNew then duplicateKey c' db else None) with
      | Some e => throw e
      | None =>
          (fun _ st =>
             (inr tt, mkStore (committed st) (staged st ++ [c']) (trace st))) ;;
          emit (Saved c') ;;
          ret c'
      end
  end.

(** ** services/complaintService *)

(** The fields of a complaint a client supplies.  A field the request
    leaves out is the empty string here: the schema's [required] treats
    both alike; [images] left out is the empty array. *)
Record ComplaintData := mkComplaintData {
  d_resourceId : string;
  d_category : string;
  d_subcategory : string;
  d_description : string;
  d_images : list string
}.

(** [new Complaint({ ...complaintData, userId, status: "pending",
    history: [...] })]; [oid] is the ObjectId the driver generates, and
    [createdAt] is the timestamp Mongoose stamps on insertion. *)
Definition newComplaint (oid : ObjectId) (data : ComplaintData) (user : User)
    (date : Date) : Complaint :=
  mkComplaint oid "" (u_id user) (d_resourceId data) (d_category data)
    (d_subcategory data) (d_description data) (d_images data) pending
    None None None None None noFeedback noEscalation None
    [mkHistoryEntry pending (u_id user) date (Some "Complaint submitted")]
    date.

(** [for (const agency of maintenanceAgencies) await sendNotification(...)]. *)
Fixpoint notifyAll (agencies : list User) (title text : string)
    (ref : ObjectId) : M unit :=
  match agencies with
  | [] => ret tt
  | agency :: rest =>
      sendNotification (Some (u_id agency)) title text "complaint" ref ;;
      notifyAll rest title text ref
  end.

Definition createComplaint (oid : ObjectId) (complaintData : ComplaintData)
    (user : User) : M Complaint :=
  withTransaction (
    date <- newDate ;;
    complaint <- save true (newComplaint oid complaintData user date) ;;
    us <- getUsers ;;
    let maintenanceAgencies :=
      if (d_category complaintData =? "Misc")%string
      then approvedWithRole "superAdmin" us
      else approvedInDepartment "departmentAdmin" (d_category complaintData) us in
    notifyAll maintenanceAgencies "New Complaint Received"
      ("A new " ++ d_category complaintData
         ++ " complaint has been submitted: " ++ complaintId complaint)
      (_id complaint) ;;
    commitTransaction ;;
    ret complaint).

Definition assignComplaint (complaintId0 agencyId : string) (userId0 : ObjectId)
    : M Complaint :=
  withTransaction (
    complaint <- findById complaintId0 ;;
    agency <- findApprovedUser agencyId ["departmentAdmin"; "maintenanceStaff"] ;;
    match agency with
    | None => throw AgencyNotFound
    | Some agency =>
        date <- newDate ;;
        let complaint :=
          set_assignedAgency (Some (canonicalId agencyId)) complaint in
        let complaint := set_status assigned complaint in
        let complaint := set_assignedAt (Some date) complaint in
        let complaint :=
          history_push
            (mkHistoryEntry assigned userId0 date
               (Some ("Assigned to " ++ name agency))) complaint in
        complaint <- save false complaint ;;
        sendNotification (Some agencyId) "Complaint Assigned"
          ("A complaint " ++ complaintId complaint
             ++ " has been assigned to you") "complaint" (_id complaint) ;;
        sendNotification (Some (userId complaint)) "Complaint Update"
          ("Your complaint " ++ complaintId complaint
             ++ " has been assigned to maintenance staff")
          "complaint" (_id complaint) ;;
        commitTransaction ;;
        ret complaint
    end).

Definition assignToStaff (complaintId0 staffId : string) (agencyId : ObjectId)
    : M Complaint :=
  withTransaction (
    complaint <- findById complaintId0 ;;
    staff <- findApprovedUser staffId ["maintenanceStaff"] ;;
    match staff with
    | None => throw StaffNotFound
    | Some staff =>
        date <- newDate ;;
        let complaint :=
          set_assignedStaff (Some (canonicalId staffId)) complaint in
        let complaint :=
          history_push
            (mkHistoryEntry (status complaint) agencyId date
               (Some ("Assigned to staff: " ++ name staff))) complaint in
        complaint <- save false complaint ;;
        sendNotification (Some staffId) "Complaint Assigned"
          ("A complaint " ++ complaintId complaint
             ++ " has been assigned to you") "complaint" (_id complaint) ;;
        commitTransaction ;;
        ret complaint
    end).

Definition resolveComplaint (complaintId0 : string)
    (resolutionNotes0 : option string) (userId0 : ObjectId) : M Complaint :=
  withTransaction (
    complaint <- findById complaintId0 ;;
    if negb (Status_eqb (status complaint) assigned) then throw MustBeAssigned
    else
      date <- newDate ;;
      let complaint := set_status resolved complaint in
      let complaint := set_resolvedAt (Some date) complaint in
      let complaint := set_resolutionNotes resolutionNotes0 complaint in
      let complaint :=
        history_push
          (mkHistoryEntry resolved userId0 date resolutionNotes0) complaint in
      complaint <- save false complaint ;;
      sendNotification (Some (userId complaint)) "Complaint Resolved"
        ("Your complaint " ++ complaintId complaint
           ++ " has been resolved. Please provide feedback.")
        "complaint" (_id complaint) ;;
      commitTransaction ;;
      ret complaint).

(** [User.findOne({ role: "superAdmin", status: "approved" })]. *)
Definition findAppellateAuthority (us : list User) : option User :=
  find (fun u => (role u =? "superAdmin")%string
                 && (u_status u =? "approved")%string) us.

Definition submitFeedback (complaintId0 : string) (rating0 : Z)
    (comment0 : option string) (userId0 : ObjectId) : M Complaint :=
  withTransaction (
    complaint <- findById complaintId0 ;;
    if negb (Status_eqb (status complaint) resolved) then throw MustBeResolved
    else
      date <- newDate ;;
      let complaint :=
        set_feedback (mkFeedback (Some rating0) comment0 (Some date)) complaint in
      complaint <-
        (if 3 <=? rating0 then
           let complaint := set_status closed complaint in
           let complaint := set_closedAt (Some date) complaint in
           let complaint :=
             history_push
               (mkHistoryEntry closed userId0 date
                  (Some ("User satisfied with resolution. Rating: "
                           ++ Js.toString rating0 ++ "/5, Comment: "
                           ++ Js.or_else comment0 "None"))) complaint in
           sendNotification (assignedAgency complaint) "Complaint Closed"
             ("Complaint " ++ complaintId complaint
                ++ " has been closed with rating: "
                ++ Js.toString rating0 ++ "/5") "complaint" (_id complaint) ;;
           ret complaint
         else
           let complaint := set_status escalated complaint in
           let complaint :=
             set_escalation
               (mkEscalation (Some date)
                  (Some (Js.or_else comment0 "User not satisfied with resolution"))
                  None None None) complaint in
           let complaint :=
             history_push
               (mkHistoryEntry escalated userId0 date
                  (Some ("User not satisfied with resolution. Rating: "
                           ++ Js.toString rating0 ++ "/5, Comment: "
                           ++ Js.or_else comment0 "None"))) complaint in
           us <- getUsers ;;
           complaint <-
             match findAppellateAuthority us with
             | Some appellate =>
                 let complaint :=
                   set_escalation
                     (set_appellateAuthority (Some (u_id appellate))
                        (escalation complaint)) complaint in
                 sendNotification (Some (u_id appellate)) "Complaint Escalated"
                   ("Complaint " ++ complaintId complaint
                      ++ " has been escalated due to unsatisfactory resolution")
                   "complaint" (_id complaint) ;;
                 ret complaint
             | None => ret complaint
             end ;;
           sendNotification (assignedAgency complaint) "Complaint Escalated"
             ("Complaint " ++ complaintId complaint
                ++ " has been escalated. Rating: "
                ++ Js.toString rating0 ++ "/5") "complaint" (_id complaint) ;;
           ret complaint) ;;
      complaint <- save false complaint ;;
      commitTransaction ;;
      ret complaint).

Definition finalizeComplaint (complaintId0 : string) (resolution : string)
    (authorityId : ObjectId) : M Complaint :=
  withTransaction (
    complaint <- findById complaintId0 ;;
    if negb (Status_eqb (status complaint) escalated) then throw OnlyEscalated
    else
      date <- newDate ;;
      let complaint := set_status finalResolution complaint in
      let complaint :=
        set_escalation
          (set_finalResolution (Some resolution) (escalation complaint))
          complaint in
      let complaint :=
        set_escalation
          (set_finalResolvedAt (Some date) (escalation complaint)) complaint in
      let complaint := set_closedAt (Some date) complaint in
      let complaint :=
        history_push
          (mkHistoryEntry finalResolution authorityId date
             (Some ("Final resolution: " ++ resolution))) complaint in
      complaint <- save false complaint ;;
      sendNotification (Some (userId complaint)) "Final Resolution"
        ("Your escalated complaint " ++ complaintId complaint
           ++ " has received final resolution from the appellate authority")
        "complaint" (_id complaint) ;;
      sendNotification (assignedAgency complaint) "Final Resolution"
        ("Escalated complaint " ++ complaintId complaint
           ++ " has received final resolution from the appellate authority")
        "complaint" (_id complaint) ;;
      commitTransaction ;;
      ret complaint).

(** Running an operation against a committed collection: its result, the
    collection afterwards and the effects in order. *)
Definition run {A} (m : M A) (env : Env) (db : list Complaint)
    : (Error + A) * list Complaint * list Effect :=
  let '(r, st) := m env (mkStore db [] []) in
  (r, committed st, trace st).

(** ** services/complaintService: listing and reporting *)

(** An identifier in a filter: a query-string parameter, which may be
    empty and must be cast, or the [_id] of the authenticated user, which
    is an ObjectId already and always truthy. *)
Inductive IdValue :=
| FromQuery (s : string)
| FromUser (id : ObjectId).

Record Filters := mkFilters {
  f_userId : option IdValue;
  f_category : option string;
  f_status : option string;
  f_resourceId : option string;
  f_dateFrom : option Date;
  f_dateTo : option Date;
  f_assignedStaff : option IdValue
}.

Definition noFilters : Filters := mkFilters None None None None None None None.

(** The MongoDB query the service builds from the filters. *)
Record Query := mkQuery {
  q_userId : option ObjectId;
  q_category : option string;
  q_status : option string;
  q_resourceId : option ObjectId;
  q_createdAt : option (Date * Date)
}.

Definition matches (q : Query) (c : Complaint) : bool :=
  match q_userId q with Some u => (userId c =? u)%string | None => true end
  && match q_category q with Some k => (category c =? k)%string | None => true end
  && match q_status q with
     | Some s => (Status_name (status c) =? s)%string | None => true end
  && match q_resourceId q with
     | Some r => (resourceId c =? r)%string | None => true end
  && match q_createdAt q with
     | Some (from, to) => Date_leb from (createdAt c) && Date_leb (createdAt c) to
     | None => true
     end.

Definition idTruthy (v : option IdValue) : bool :=
  match v with
  | Some (FromQuery s) => negb (s =? "")%string
  | Some (FromUser _) => true
  | None => false
  end.

(** [mongoose.Types.ObjectId(value)]. *)
Definition toObjectId (v : IdValue) : Error + ObjectId :=
  match v with
  | FromQuery s =>
      if isObjectId s then inr (canonicalId s) else inl (CastError "ObjectId")
  | FromUser id => inr id
  end.

(** [if (filters.x) query.x = mongoose.Types.ObjectId(filters.x)]. *)
Definition idClause (v : option IdValue) : Error + option ObjectId :=
  if idTruthy v then
    match v with
    | Some v' => match toObjectId v' with
                 | inr id => inr (Some id)
                 | inl e => inl e
                 end
    | None => inr None
    end
  else inr None.

Definition stringClause (v : option string) : option string :=
  if Js.truthy v then v else None.

Definition dateClause (from to : option Date) : option (Date * Date) :=
  match from, to with
  | Some a, Some b => Some (a, b)
  | _, _ => None
  end.

(** The query of [getComplaints]: [userId], [category], [status],
    [resourceId] and the date range; [assignedStaff] is not read. *)
Definition listQuery (filters : Filters) : Error + Query :=
  match idClause (f_userId filters) with
  | inl e => inl e
  | inr u =>
      match idClause (option_map FromQuery (f_resourceId filters)) with
      | inl e => inl e
      | inr r =>
          inr (mkQuery u (stringClause (f_category filters))
                 (stringClause (f_status filters)) r
                 (dateClause (f_dateFrom filters) (f_dateTo filters)))
      end
  end.

(** The [$match] stage of [getComplaintStats]: as [listQuery] without
    [status]. *)
Definition statsQuery (filters : Filters) : Error + Query :=
  match idClause (f_userId filters) with
  | inl e => inl e
  | inr u =>
      match idClause (option_map FromQuery (f_resourceId filters)) with
      | inl e => inl e
      | inr r =>
          inr (mkQuery u (stringClause (f_category filters)) None r
                 (dateClause (f_dateFrom filters) (f_dateTo filters)))
      end
  end.

(** The [$match] stage of [getCategoryDistribution]: [userId],
    [resourceId] and the date range; [category] is not read. *)
Definition distributionQuery (filters : Filters) : Error + Query :=
  match idClause (f_userId filters) with
  | inl e => inl e
  | inr u =>
      match idClause (option_map FromQuery (f_resourceId filters)) with
      | inl e => inl e
      | inr r =>
          inr (mkQuery u None None r
                 (dateClause (f_dateFrom filters) (f_dateTo filters)))
      end
  end.

(** The value a document is sorted on; [KNone] is a path the document
    does not have, which MongoDB sorts before every value. *)
Inductive SortKey :=
| KDate (d : Date) | KString (s : string) | KNumber (n : Z) | KNone.

Definition optKey {A} (k : A -> SortKey) (o : option A) : SortKey :=
  match o with
  | Some a => k a
  | None => KNone
  end.

Definition sortKey (field : string) (c : Complaint) : SortKey :=
  if (field =? "createdAt")%string then KDate (createdAt c)
  else if (field =? "_id")%string then KString (_id c)
  else if (field =? "complaintId")%string then KString (complaintId c)
  else if (field =? "userId")%string then KString (userId c)
  else if (field =? "resourceId")%string then KString (resourceId c)
  else if (field =? "category")%string then KString (category c)
  else if (field =? "subcategory")%string then KString (subcategory c)
  else if (field =? "description")%string then KString (description c)
  else if (field =? "status")%string then KString (Status_name (status c))
  else if (field =? "assignedAgency")%string
       then optKey KString (assignedAgency c)
  else if (field =? "assignedStaff")%string
       then optKey KString (assignedStaff c)
  else if (field =? "assignedAt")%string then optKey KDate (assignedAt c)
  else if (field =? "resolvedAt")%string then optKey KDate (resolvedAt c)
  else if (field =? "closedAt")%string then optKey KDate (closedAt c)
  else if (field =? "resolutionNotes")%string
       then optKey KString (resolutionNotes c)
  else if (field =? "feedback.rating")%string
       then optKey KNumber (rating (feedback c))
  else if (field =? "feedback.comment")%string
       then optKey KString (comment (feedback c))
  else if (field =? "feedback.submittedAt")%string
       then optKey KDate (submittedAt (feedback c))
  else if (field =? "escalation.escalatedAt")%string
       then optKey KDate (escalatedAt (escalation c))
  else if (field =? "escalation.reason")%string
       then optKey KString (reason (escalation c))
  else if (field =? "escalation.appellateAuthority")%string
       then optKey KString (appellateAuthority (escalation c))
  else if (field =? "escalation.finalResolution")%string
       then optKey KString (finalResolutionText (escalation c))
  else if (field =? "escalation.finalResolvedAt")%string
       then optKey KDate (finalResolvedAt (escalation c))
  else KNone.

Definition SortKey_leb (a b : SortKey) : bool :=
  match a, b with
  | KNone, _ => true
  | _, KNone => false
  | KDate x, KDate y => Date_leb x y
  | KString x, KString y => String.leb x y
  | KNumber x, KNumber y => x <=? y
  | _, _ => true
  end.

Fixpoint insertSorted (le : Complaint -> Complaint -> bool) (c : Complaint)
    (l : list Complaint) : list Complaint :=
  match l with
  | [] => [c]
  | d :: l' => if le c d then c :: l else d :: insertSorted le c l'
  end.

(** [sort: { [sortField]: sortOrder }]: ascending for a positive order,
    descending otherwise. *)
Definition sortDocs (field : string) (order : Z) (l : list Complaint)
    : list Complaint :=
  let le c d :=
    if 0 <? order then SortKey_leb (sortKey field c) (sortKey field d)
    else SortKey_leb (sortKey field d) (sortKey field c) in
  fold_right (insertSorted le) [] l.

Record Page := mkPage {
  docs : list Complaint;
  totalDocs : Z;
  totalPages : Z;
  page : Z
}.

(** [Complaint.paginate(query, { page, limit, sort })]. *)
Definition paginate (q : Query) (page0 limit : Z) (field : string) (order : Z)
    (db : list Complaint) : Page :=
  let found := sortDocs field order (filter (matches q) db) in
  let total := Z.of_nat (List.length found) in
  mkPage
    (firstn (Z.to_nat limit) (skipn (Z.to_nat ((page0 - 1) * limit)) found))
    total
    (if limit <=? 0 then 1 else Z.max 1 ((total + limit - 1) / limit))
    page0.

Definition getComplaints (filters : Filters) (page0 limit : Z)
    (sortField : string) (sortOrder : Z) (db : list Complaint) : Error + Page :=
  match listQuery filters with
  | inl e => inl e
  | inr q => inr (paginate q page0 limit sortField sortOrder db)
  end.

(** The average rating is kept as the sum of the ratings and the number of
    rated complaints; [None] when no matched complaint is rated (MongoDB's
    [null]). *)
Record Stats := mkStats {
  total : Z;
  n_pending : Z;
  n_assigned : Z;
  n_resolved : Z;
  n_closed : Z;
  n_escalated : Z;
  n_finalResolution : Z;
  avgRating : option (Z * Z)
}.

Definition countStatus (s : Status) (l : list Complaint) : Z :=
  Z.of_nat (List.length (filter (fun c => Status_eqb (status c) s) l)).

Definition ratings (l : list Complaint) : list Z :=
  flat_map (fun c => match rating (feedback c) with
                     | Some r => [r]
                     | None => []
                     end) l.

(** The [$group] stage with [_id: null]; no group at all on no input. *)
Definition groupStats (l : list Complaint) : option Stats :=
  match l with
  | [] => None
  | _ =>
      Some (mkStats (Z.of_nat (List.length l))
              (countStatus pending l) (countStatus assigned l)
              (countStatus resolved l) (countStatus closed l)
              (countStatus escalated l) (countStatus finalResolution l)
              (match ratings l with
               | [] => None
               | rs => Some (fold_right Z.add 0 rs, Z.of_nat (List.length rs))
               end))
  end.

Definition getComplaintStats (filters : Filters) (db : list Complaint)
    : Error + Stats :=
  match statsQuery filters with
  | inl e => inl e
  | inr q =>
      inr (match groupStats (filter (matches q) db) with
           | Some s => s
           | None => mkStats 0 0 0 0 0 0 0 (Some (0, 1))
           end)
  end.

(** The [$group] stage with [_id: "$category"], one row per category in
    the order of first occurrence. *)
Fixpoint bump (k : string) (rows : list (string * Z)) : list (string * Z) :=
  match rows with
  | [] => [(k, 1)]
  | (k', n) :: rows' =>
      if (k' =? k)%string then (k', n + 1) :: rows' else (k', n) :: bump k rows'
  end.

Definition groupByCategory (l : list Complaint) : list (string * Z) :=
  fold_left (fun rows c => bump (category c) rows) l [].

Definition getCategoryDistribution (filters : Filters) (db : list Complaint)
    : Error + list (string * Z) :=
  match distributionQuery filters with
  | inl e => inl e
  | inr q => inr (groupByCategory (filter (matches q) db))
  end.

(** ** HTTP responses *)

Inductive Payload (A : Type) :=
| Data (a : A)                   (* { success: true, data } *)
| Errors (errs : list string)    (* { success: false, errors } *)
| Failure (msg : string).        (* { success: false, message } *)

Arguments Data {A} a.
Arguments Errors {A} errs.
Arguments Failure {A} msg.

Record Response (A : Type) := mkResponse { code : Z; payload : Payload A }.

Arguments mkResponse {A} code payload.
Arguments code {A} r.
Arguments payload {A} r.

(** ** controllers/complaintController *)

Module Controller.

(** [try { ... res.status(ok).json(data) } catch (error) {
    res.status(500).json(error.message) }] around a service call. *)
Definition respond {A} (ok : Z) (m : M A) : M (Response A) :=
  fun env st =>
    match m env st with
    | (inr a, st') => (inr (mkResponse ok (Data a)), st')
    | (inl e, st') => (inr (mkResponse 500 (Failure (message e))), st')
    end.

(** The body of [POST /api/complaints]; a field is [None] when the
    request leaves it out. *)
Record CreateBody := mkCreateBody {
  b_resourceId : option string;
  b_category : option string;
  b_subcategory : option string;
  b_description : option string;
  b_images : option (list string)
}.

Definition orEmpty (o : option string) : string :=
  match o with Some s => s | None => "" end.

Definition createComplaint (errors : list string) (oid : ObjectId)
    (body : CreateBody) (user : User) : M (Response Complaint) :=
  match errors with
  | _ :: _ => ret (mkResponse 400 (Errors errors))
  | [] =>
      if match b_images body with
         | Some imgs => (2 <? List.length imgs)%nat
         | None => false
         end
      then ret (mkResponse 400 (Failure "Maximum 2 images allowed per complaint"))
      else
        respond 201
          (createComplaint oid
             (mkComplaintData (orEmpty (b_resourceId body))
                (orEmpty (b_category body)) (orEmpty (b_subcategory body))
                (orEmpty (b_description body))
                (match b_images body with Some l => l | None => [] end))
             user)
  end.

Definition assignComplaint (errors : list string) (id agencyId : string)
    (user : User) : M (Response Complaint) :=
  match errors with
  | _ :: _ => ret (mkResponse 400 (Errors errors))
  | [] => respond 200 (assignComplaint id agencyId (u_id user))
  end.

Definition assignToStaff (errors : list string) (id staffId : string)
    (user : User) : M (Response Complaint) :=
  match errors with
  | _ :: _ => ret (mkResponse 400 (Errors errors))
  | [] => respond 200 (assignToStaff id staffId (u_id user))
  end.

Definition resolveComplaint (errors : list string) (id : string)
    (resolutionNotes0 : option string) (user : User) : M (Response Complaint) :=
  match errors with
  | _ :: _ => ret (mkResponse 400 (Errors errors))
  | [] => respond 200 (resolveComplaint id resolutionNotes0 (u_id user))
  end.

(** [rating] is the integer the body carries; a body whose rating is
    absent or not an integer never gets past the route's validator. *)
Definition submitFeedback (errors : list string) (id : string) (rating0 : Z)
    (comment0 : option string) (user : User) : M (Response Complaint) :=
  match errors with
  | _ :: _ => ret (mkResponse 400 (Errors errors))
  | [] =>
      if (rating0 <? 1) || (5 <? rating0)
      then ret (mkResponse 400 (Failure "Rating must be between 1 and 5"))
      else respond 200 (submitFeedback id rating0 comment0 (u_id user))
  end.

Definition finalizeComplaint (errors : list string) (id resolution : string)
    (user : User) : M (Response Complaint) :=
  match errors with
  | _ :: _ => ret (mkResponse 400 (Errors errors))
  | [] => respond 200 (finalizeComplaint id resolution (u_id user))
  end.

(** The query string of the listing and reporting endpoints. *)
Record ListParams := mkListParams {
  p_userId : option string;
  p_resourceId : option string;
  p_category : option string;
  p_status : option string;
  p_dateFrom : option Date;
  p_dateTo : option Date;
  p_page : option Z;
  p_limit : option Z;
  p_sortField : option string;
  p_sortOrder : option Z
}.

Definition queryId (o : option string) : option IdValue :=
  if Js.truthy o then option_map FromQuery o else None.

Definition commonDates (p : ListParams) : option Date * option Date :=
  match p_dateFrom p, p_dateTo p with
  | Some a, Some b => (Some a, Some b)
  | _, _ => (None, None)
  end.

(** The filters [getComplaints] builds for the caller's role. *)
Definition listFilters (user : User) (p : ListParams) : Filters :=
  let '(from, to) := commonDates p in
  let resource := stringClause (p_resourceId p) in
  let status0 := stringClause (p_status p) in
  if (role user =? "resident")%string then
    mkFilters (Some (FromUser (u_id user))) None status0 resource from to None
  else if (role user =? "departmentAdmin")%string then
    mkFilters (queryId (p_userId p)) (department user) status0 resource
      from to None
  else if (role user =? "maintenanceStaff")%string then
    mkFilters None None status0 resource from to (Some (FromUser (u_id user)))
  else
    mkFilters (queryId (p_userId p)) (stringClause (p_category p)) status0
      resource from to None.

Definition orDefault {A} (o : option A) (d : A) : A :=
  match o with Some a => a | None => d end.

Definition getComplaints (user : User) (p : ListParams) (db : list Complaint)
    : Response Page :=
  match getComplaints (listFilters user p)
          (orDefault (p_page p) 1) (orDefault (p_limit p) 10)
          (Js.or_else (p_sortField p) "createdAt")
          (orDefault (p_sortOrder p) (-1)) db with
  | inr result => mkResponse 200 (Data result)
  | inl e => mkResponse 500 (Failure (message e))
  end.

(** The filters [getComplaintStats] builds for the caller's role. *)
Definition statsFilters (user : User) (p : ListParams) : Filters :=
  let '(from, to) := commonDates p in
  let resource := stringClause (p_resourceId p) in
  if (role user =? "departmentAdmin")%string then
    mkFilters (queryId (p_userId p)) (department user) None resource
      from to None
  else if (role user =? "resident")%string then
    mkFilters (Some (FromUser (u_id user))) None None resource from to None
  else
    mkFilters (queryId (p_userId p)) (stringClause (p_category p)) None
      resource from to None.

Definition getComplaintStats (user : User) (p : ListParams)
    (db : list Complaint) : Response Stats :=
  match getComplaintStats (statsFilters user p) db with
  | inr stats => mkResponse 200 (Data stats)
  | inl e => mkResponse 500 (Failure (message e))
  end.

(** The filters [getCategoryDistribution] builds for the caller's role:
    a resident is tied to their own complaints, every other role may
    filter as it likes. *)
Definition distributionFilters (user : User) (p : ListParams) : Filters :=
  let '(from, to) := commonDates p in
  let resource := stringClause (p_resourceId p) in
  if (role user =? "resident")%string then
    mkFilters (Some (FromUser (u_id user))) None None resource from to None
  else
    mkFilters (queryId (p_userId p)) None None resource from to None.

Definition getCategoryDistribution (user : User) (p : ListParams)
    (db : list Complaint) : Response (list (string * Z)) :=
  match getCategoryDistribution (distributionFilters user p) db with
  | inr distribution => mkResponse 200 (Data distribution)
  | inl e => mkResponse 500 (Failure (message e))
  end.

End Controller.

(** ** routes/complaintRoutes.js *)

Module Routes.

Import Controller.

(** express-validator's [notEmpty()] on a field that may be absent. *)
Definition notEmpty (v : option string) : bool := Js.truthy v.

Definition failing (ok : bool) (msg : string) : list string :=
  if ok then [] else [msg].

(** The validation chain of [router.post("/")]. *)
Definition createValidators (body : CreateBody) : list string :=
  failing (notEmpty (b_resourceId body)) "Resource ID is required"
  ++ failing (existsb (String.eqb (orEmpty (b_category body)))
                ["Electrical"; "Civil"; "Misc"]) "Category is required"
  ++ failing (notEmpty (b_subcategory body)) "Subcategory is required"
  ++ failing (notEmpty (b_description body))
       "Description is required and should not exceed 1000 characters"
  ++ failing (String.length (orEmpty (b_description body)) <=? 1000)%nat
       "Description is required and should not exceed 1000 characters"
  ++ failing (match b_images body with
              | Some imgs => (List.length imgs <=? 2)%nat
              | None => true
              end) "Invalid value".

(** [check("rating", ...).notEmpty().isInt({ min: 1, max: 5 })]. *)
Definition ratingValidators (rating0 : option Z) : list string :=
  match rating0 with
  | None => ["Rating is required and must be between 1-5";
             "Rating is required and must be between 1-5"]
  | Some r =>
      failing ((1 <=? r) && (r <=? 5))
        "Rating is required and must be between 1-5"
  end.

(** Modelled from the spec: middleware/roleCheck is not among the
    sources.  The role gate of the specification lets a principal through
    when its role is one of the roles the route lists, and answers
    Forbidden otherwise. *)
Definition checkRole (roles : list string) (user : User) : bool :=
  existsb (String.eqb (role user)) roles.

Definition forbidden {A} : M (Response A) :=
  ret (mkResponse 403 (Failure "Forbidden")).

Definition post_complaint (oid : ObjectId) (body : CreateBody) (user : User)
    : M (Response Complaint) :=
  Controller.createComplaint (createValidators body) oid body user.

Definition put_assign (id : string) (agencyId : option string) (user : User)
    : M (Response Complaint) :=
  if checkRole ["superAdmin"; "departmentAdmin"] user then
    Controller.assignComplaint
      (failing (notEmpty agencyId) "Agency ID is required")
      id (orEmpty agencyId) user
  else forbidden.

Definition put_assign_staff (id : string) (staffId : option string)
    (user : User) : M (Response Complaint) :=
  if checkRole ["departmentAdmin"] user then
    Controller.assignToStaff
      (failing (notEmpty staffId) "Staff ID is required")
      id (orEmpty staffId) user
  else forbidden.

Definition put_resolve (id : string) (resolutionNotes0 : option string)
    (user : User) : M (Response Complaint) :=
  if checkRole ["maintenanceStaff"; "departmentAdmin"] user then
    Controller.resolveComplaint
      (failing (notEmpty resolutionNotes0) "Resolution notes are required")
      id resolutionNotes0 user
  else forbidden.

Definition put_feedback (id : string) (rating0 : option Z)
    (comment0 : option string) (user : User) : M (Response Complaint) :=
  if checkRole ["resident"] user then
    Controller.submitFeedback (ratingValidators rating0) id
      (orDefault rating0 0) comment0 user
  else forbidden.

Definition put_final_resolution (id : string) (resolution : option string)
    (user : User) : M (Response Complaint) :=
  if checkRole ["superAdmin"] user then
    Controller.finalizeComplaint
      (failing (notEmpty resolution) "Final resolution is required")
      id (orEmpty resolution) user
  else forbidden.

End Routes.

(** ** utils/constants.js *)

Definition COMPLAINT_CATEGORIES : list (string * list string) :=
  [("Electrical",
    ["Lighting"; "Power Outlets"; "Fan/AC"; "Electrical Appliances";
     "Switchboard"; "Wiring Issues"; "UPS/Inverter"; "Other Electrical"]);
   ("Civil",
    ["Plumbing"; "Drainage"; "Wall/Ceiling"; "Flooring"; "Carpentry";
     "Painting"; "Doors/Windows"; "Water Supply"; "Other Civil"]);
   ("Misc",
    ["Housekeeping"; "Garden/Landscape"; "Security"; "Parking"; "Facilities";
     "Pest Control"; "Internet/Network"; "Common Area"; "Other"])].

(** [COMPLAINT_CATEGORIES[category]], the defined set of a category. *)
Definition subcategoriesOf (cat : string) : option (list string) :=
  option_map snd (find (fun row => (fst row =? cat)%string) COMPLAINT_CATEGORIES).

(** ** The operations as one type *)

(** A request to the lifecycle engine, as the service receives it. *)
Inductive Op :=
| Submit (oid : ObjectId) (data : ComplaintData) (user : User)
| AssignToAgency (id agencyId : string) (actor : ObjectId)
| AssignStaff (id staffId : string) (actor : ObjectId)
| Resolve (id : string) (notes0 : option string) (actor : ObjectId)
| GiveFeedback (id : string) (rating0 : Z) (comment0 : option string)
    (actor : ObjectId)
| Finalize (id resolution : string) (actor : ObjectId).

Definition exec (op : Op) : M Complaint :=
  match op with
  | Submit oid data user => createComplaint oid data user
  | AssignToAgency id agencyId actor => assignComplaint id agencyId actor
  | AssignStaff id staffId actor => assignToStaff id staffId actor
  | Resolve id notes0 actor => resolveComplaint id notes0 actor
  | GiveFeedback id r cm actor => submitFeedback id r cm actor
  | Finalize id res actor => finalizeComplaint id res actor
  end.

(** The collection after a sequence of requests, each run to completion
    in the same environment. *)
Fixpoint replay (env : Env) (ops : list Op) (db : list Complaint)
    : list Complaint :=
  match ops with
  | [] => db
  | op :: ops' => replay env ops' (snd (fst (run (exec op) env db)))
  end.

(** ** The transition graph of the specification *)

(** The graph as the specification draws it: pending -> assigned ->
    resolved -> closed | escalated, and escalated -> finalResolution. *)
Definition graph (a b : Status) : bool :=
  match a, b with
  | pending, assigned
  | assigned, resolved
  | resolved, closed
  | resolved, escalated
  | escalated, finalResolution => true
  | _, _ => false
  end.

(** ** A sample deployment, used to run the operations on concrete data *)

Module Sample.

Definition alice : User :=
  mkUser "a00000000000000000000001" "Alice" "resident" None "approved".
Definition carol : User :=
  mkUser "a00000000000000000000004" "Carol" "resident" None "approved".
Definition bob : User :=
  mkUser "a00000000000000000000002" "Bob" "departmentAdmin"
    (Some "Electrical") "approved".
Definition dave : User :=
  mkUser "a00000000000000000000005" "Dave" "maintenanceStaff"
    (Some "Electrical") "approved".
Definition root : User :=
  mkUser "a00000000000000000000003" "Root" "superAdmin" None "approved".

Definition may2025 : Date := mkDate (2025 * 12 + 4) 1000.

Definition env : Env :=
  mkEnv [alice; carol; bob; dave; root] may2025 (fun _ _ => true).

(** The same deployment with a notification channel that always fails. *)
Definition envDown : Env :=
  mkEnv [alice; carol; bob; dave; root] may2025 (fun _ _ => false).

Definition lamp : ComplaintData :=
  mkComplaintData "b00000000000000000000001" "Electrical" "Lighting"
    "The light fixture in the hallway is not working" [].

Definition leak : ComplaintData :=
  mkComplaintData "b00000000000000000000002" "Civil" "Plumbing"
    "Water is leaking under the sink" [].

Definition id1 : ObjectId := "c00000000000000000000001".
Definition id2 : ObjectId := "c00000000000000000000002".

(** Two complaints as the collection holds them, pending, with
    identifiers of the form the schema's hook builds. *)
Definition c_submitted : Complaint :=
  Eval vm_compute in
    set_complaintId "CMP-25-05-0001" (newComplaint id1 lamp alice may2025).

Definition c_leak : Complaint :=
  Eval vm_compute in
    set_complaintId "CMP-25-05-0002" (newComplaint id2 leak carol may2025).

Definition submitted : list Complaint := [c_submitted].

Definition assigned1 : list Complaint :=
  Eval vm_compute in
    replay env [AssignToAgency id1 (u_id bob) (u_id root)] submitted.

Definition resolved1 : list Complaint :=
  Eval vm_compute in
    replay env [Resolve id1 (Some "Lamp replaced") (u_id bob)] assigned1.

Definition closed1 : list Complaint :=
  Eval vm_compute in
    replay env [GiveFeedback id1 5 (Some "Thanks") (u_id alice)] resolved1.

Definition escalated1 : list Complaint :=
  Eval vm_compute in
    replay env [GiveFeedback id1 1 (Some "still broken") (u_id alice)] resolved1.

Definition two : list Complaint := [c_submitted; c_leak].

(** The first document of a collection. *)
Definition first (db : list Complaint) : Complaint :=
  hd (newComplaint id1 lamp alice may2025) db.

Definition c_assigned : Complaint := Eval vm_compute in first assigned1.
Definition c_resolved : Complaint := Eval vm_compute in first resolved1.
Definition c_closed : Complaint := Eval vm_compute in first closed1.
Definition c_escalated : Complaint := Eval vm_compute in first escalated1.

End Sample.

(** * Properties *)

(** ** The operations in closed form *)

(** The document [findById] returns, or the error it throws. *)
Definition lookup (db : list Complaint) (id : string) : Error + Complaint :=
  if isObjectId id then
    match find (fun c => (_id c =? canonicalId id)%string) db with
    | Some c => inr c
    | None => inl ComplaintNotFound
    end
  else inl (CastError "_id").

Definition lookupUser (us : list User) (id : string) (roles : list string)
    : Error + option User :=
  if isObjectId id then
    inr (find (fun u => (u_id u =? canonicalId id)%string
                        && existsb (String.eqb (role u)) roles
                        && (u_status u =? "approved")%string) us)
  else inl (CastError "_id").

(** The outcome of an operation that throws before anything is committed. *)
Definition failed {A} (e : Error) (db : list Complaint)
    : (Error + A) * list Complaint * list Effect :=
  (inl e, db, [StartTransaction; AbortTransaction]).

(** The effect one call of [sendNotification] leaves in the trace. *)
Definition notifyEvent (env : Env) (recipient : option ObjectId)
    (title text : string) (ref : ObjectId) : Effect :=
  if delivers env recipient title
  then Notified recipient title text "complaint" ref
  else NotifyFailed recipient title.

Lemma findById_run id env st :
  findById id env st = (lookup (committed st) id, st).
Proof.
  unfold findById, lookup, castObjectId, bind, getCommitted, ret, throw.
  destruct (isObjectId id); simpl; [| reflexivity].
  destruct (find _ (committed st)); reflexivity.
Qed.

Lemma findApprovedUser_run id roles env st :
  findApprovedUser id roles env st = (lookupUser (users env) id roles, st).
Proof.
  unfold findApprovedUser, lookupUser, castObjectId, bind, getUsers, ret, throw.
  destruct (isObjectId id); reflexivity.
Qed.

Lemma sendNotification_run recipient title text ref env st :
  sendNotification recipient title text "complaint" ref env st =
  (inr (delivers env recipient title),
   mkStore (committed st) (staged st)
     (trace st ++ [notifyEvent env recipient title text ref])).
Proof.
  unfold sendNotification, notifyEvent, bind, emit, ret.
  destruct (delivers env recipient title); reflexivity.
Qed.

Lemma save_existing_run c env st :
  save false c env st =
  match validate c with
  | Some e => (inl e, st)
  | None => (inr c, mkStore (committed st) (staged st ++ [c])
                      (trace st ++ [Saved c]))
  end.
Proof.
  unfold save, preSave, bind, ret, throw, getCommitted, emit.
  destruct (validate c); reflexivity.
Qed.

(** What [resolveComplaint] assigns to the document. *)
Definition resolveStep (date : Date) (notes0 : option string) (actor : ObjectId)
    (c : Complaint) : Complaint :=
  history_push (mkHistoryEntry resolved actor date notes0)
    (set_resolutionNotes notes0
       (set_resolvedAt (Some date) (set_status resolved c))).

Lemma resolveComplaint_run env db id notes0 actor :
  run (resolveComplaint id notes0 actor) env db =
  match lookup db id with
  | inl e => failed e db
  | inr c =>
      if negb (Status_eqb (status c) assigned) then failed MustBeAssigned db
      else
        let c1 := resolveStep (now env) notes0 actor c in
        match validate c1 with
        | Some e => failed e db
        | None =>
            (inr c1, upsert c1 db,
             [StartTransaction; Saved c1;
              notifyEvent env (Some (userId c1)) "Complaint Resolved"
                ("Your complaint " ++ complaintId c1
                   ++ " has been resolved. Please provide feedback.") (_id c1);
              CommitTransaction])
        end
  end.
Proof.
  unfold run, resolveComplaint, withTransaction.
  unfold bind at 1. unfold emit at 1. unfold bind at 1.
  rewrite findById_run. cbn [committed].
  destruct (lookup db id) as [e | c]; [reflexivity |].
  destruct (negb (Status_eqb (status c) assigned)); [reflexivity |].
  unfold bind at 1. unfold newDate at 1.
  unfold bind at 1. rewrite save_existing_run.
  fold (resolveStep (now env) notes0 actor c).
  destruct (validate (resolveStep (now env) notes0 actor c)); [reflexivity |].
  unfold bind at 1. rewrite sendNotification_run.
  reflexivity.
Qed.

(** What [finalizeComplaint] assigns to the document. *)
Definition finalizeStep (date : Date) (resolution : string) (actor : ObjectId)
    (c : Complaint) : Complaint :=
  let c := set_status finalResolution c in
  let c := set_escalation
             (set_finalResolution (Some resolution) (escalation c)) c in
  let c := set_escalation (set_finalResolvedAt (Some date) (escalation c)) c in
  let c := set_closedAt (Some date) c in
  history_push
    (mkHistoryEntry finalResolution actor date
       (Some ("Final resolution: " ++ resolution))) c.

Lemma finalizeComplaint_run env db id resolution actor :
  run (finalizeComplaint id resolution actor) env db =
  match lookup db id with
  | inl e => failed e db
  | inr c =>
      if negb (Status_eqb (status c) escalated) then failed OnlyEscalated db
      else
        let c1 := finalizeStep (now env) resolution actor c in
        match validate c1 with
        | Some e => failed e db
        | None =>
            (inr c1, upsert c1 db,
             [StartTransaction; Saved c1;
              notifyEvent env (Some (userId c1)) "Final Resolution"
                ("Your escalated complaint " ++ complaintId c1
                   ++ " has received final resolution from the appellate authority")
                (_id c1);
              notifyEvent env (assignedAgency c1) "Final Resolution"
                ("Escalated complaint " ++ complaintId c1
                   ++ " has received final resolution from the appellate authority")
                (_id c1);
              CommitTransaction])
        end
  end.
Proof.
  unfold run, finalizeComplaint, withTransaction.
  unfold bind at 1. unfold emit at 1. unfold bind at 1.
  rewrite findById_run. cbn [committed].
  destruct (lookup db id) as [e | c]; [reflexivity |].
  destruct (negb (Status_eqb (status c) escalated)); [reflexivity |].
  unfold bind at 1. unfold newDate at 1.
  unfold bind at 1. rewrite save_existing_run.
  fold (finalizeStep (now env) resolution actor c).
  destruct (validate (finalizeStep (now env) resolution actor c)); [reflexivity |].
  unfold bind at 1. rewrite sendNotification_run.
  unfold bind at 1. rewrite sendNotification_run.
  reflexivity.
Qed.

(** What [assignComplaint] assigns to the document. *)
Definition assignStep (date : Date) (agencyId : string) (agency : User)
    (actor : ObjectId) (c : Complaint) : Complaint :=
  history_push
    (mkHistoryEntry assigned actor date (Some ("Assigned to " ++ name agency)))
    (set_assignedAt (Some date)
       (set_status assigned
          (set_assignedAgency (Some (canonicalId agencyId)) c))).

Lemma assignComplaint_run env db id agencyId actor :
  run (assignComplaint id agencyId actor) env db =
  match lookup db id with
  | inl e => failed e db
  | inr c =>
      match lookupUser (users env) agencyId
              ["departmentAdmin"; "maintenanceStaff"] with
      | inl e => failed e db
      | inr None => failed AgencyNotFound db
      | inr (Some agency) =>
          let c1 := assignStep (now env) agencyId agency actor c in
          match validate c1 with
          | Some e => failed e db
          | None =>
              (inr c1, upsert c1 db,
               [StartTransaction; Saved c1;
                notifyEvent env (Some agencyId) "Complaint Assigned"
                  ("A complaint " ++ complaintId c1
                     ++ " has been assigned to you") (_id c1);
                notifyEvent env (Some (userId c1)) "Complaint Update"
                  ("Your complaint " ++ complaintId c1
                     ++ " has been assigned to maintenance staff") (_id c1);
                CommitTransaction])
          end
      end
  end.
Proof.
  unfold run, assignComplaint, withTransaction.
  unfold bind at 1. unfold emit at 1. unfold bind at 1.
  rewrite findById_run. cbn [committed].
  destruct (lookup db id) as [e | c]; [reflexivity |].
  unfold bind at 1. rewrite findApprovedUser_run.
  destruct (lookupUser (users env) agencyId _) as [e | [agency |]];
    [reflexivity | | reflexivity].
  unfold bind at 1. unfold newDate at 1.
  unfold bind at 1. rewrite save_existing_run.
  fold (assignStep (now env) agencyId agency actor c).
  destruct (validate (assignStep (now env) agencyId agency actor c));
    [reflexivity |].
  unfold bind at 1. rewrite sendNotification_run.
  unfold bind at 1. rewrite sendNotification_run.
  reflexivity.
Qed.

(** What [assignToStaff] assigns to the document. *)
Definition staffStep (date : Date) (staffId : string) (staff : User)
    (actor : ObjectId) (c : Complaint) : Complaint :=
  history_push
    (mkHistoryEntry (status c) actor date
       (Some ("Assigned to staff: " ++ name staff)))
    (set_assignedStaff (Some (canonicalId staffId)) c).

Lemma assignToStaff_run env db id staffId actor :
  run (assignToStaff id staffId actor) env db =
  match lookup db id with
  | inl e => failed e db
  | inr c =>
      match lookupUser (users env) staffId ["maintenanceStaff"] with
      | inl e => failed e db
      | inr None => failed StaffNotFound db
      | inr (Some staff) =>
          let c1 := staffStep (now env) staffId staff actor c in
          match validate c1 with
          | Some e => failed e db
          | None =>
              (inr c1, upsert c1 db,
               [StartTransaction; Saved c1;
                notifyEvent env (Some staffId) "Complaint Assigned"
                  ("A complaint " ++ complaintId c1
                     ++ " has been assigned to you") (_id c1);
                CommitTransaction])
          end
      end
  end.
Proof.
  unfold run, assignToStaff, withTransaction.
  unfold bind at 1. unfold emit at 1. unfold bind at 1.
  rewrite findById_run. cbn [committed].
  destruct (lookup db id) as [e | c]; [reflexivity |].
  unfold bind at 1. rewrite findApprovedUser_run.
  destruct (lookupUser (users env) staffId _) as [e | [staff |]];
    [reflexivity | | reflexivity].
  unfold bind at 1. unfold newDate at 1.
  unfold bind at 1. rewrite save_existing_run.
  match goal with
  | |- context [validate ?x] =>
      change x with (staffStep (now env) staffId staff actor c)
  end.
  destruct (validate (staffStep (now env) staffId staff actor c));
    [reflexivity |].
  unfold bind at 1. rewrite sendNotification_run.
  reflexivity.
Qed.

(** What [submitFeedback] assigns when the rating closes the complaint. *)
Definition closeStep (date : Date) (rating0 : Z) (comment0 : option string)
    (actor : ObjectId) (c : Complaint) : Complaint :=
  history_push
    (mkHistoryEntry closed actor date
       (Some ("User satisfied with resolution. Rating: "
                ++ Js.toString rating0 ++ "/5, Comment: "
                ++ Js.or_else comment0 "None")))
    (set_closedAt (Some date)
       (set_status closed
          (set_feedback (mkFeedback (Some rating0) comment0 (Some date)) c))).

(** What it assigns when the rating escalates the complaint. *)
Definition escalateStep (date : Date) (us : list User) (rating0 : Z)
    (comment0 : option string) (actor : ObjectId) (c : Complaint) : Complaint :=
  let c :=
    history_push
      (mkHistoryEntry escalated actor date
         (Some ("User not satisfied with resolution. Rating: "
                  ++ Js.toString rating0 ++ "/5, Comment: "
                  ++ Js.or_else comment0 "None")))
      (set_escalation
         (mkEscalation (Some date)
            (Some (Js.or_else comment0 "User not satisfied with resolution"))
            None None None)
         (set_status escalated
            (set_feedback (mkFeedback (Some rating0) comment0 (Some date)) c))) in
  match findAppellateAuthority us with
  | Some appellate =>
      set_escalation
        (set_appellateAuthority (Some (u_id appellate)) (escalation c)) c
  | None => c
  end.

Definition feedbackStep (date : Date) (us : list User) (rating0 : Z)
    (comment0 : option string) (actor : ObjectId) (c : Complaint) : Complaint :=
  if 3 <=? rating0 then closeStep date rating0 comment0 actor c
  else escalateStep date us rating0 comment0 actor c.

(** The notifications [submitFeedback] sends, all of them before it saves. *)
Definition feedbackEvents (env : Env) (rating0 : Z) (c1 : Complaint)
    : list Effect :=
  if 3 <=? rating0 then
    [notifyEvent env (assignedAgency c1) "Complaint Closed"
       ("Complaint " ++ complaintId c1 ++ " has been closed with rating: "
          ++ Js.toString rating0 ++ "/5") (_id c1)]
  else
    (match findAppellateAuthority (users env) with
     | Some appellate =>
         [notifyEvent env (Some (u_id appellate)) "Complaint Escalated"
            ("Complaint " ++ complaintId c1
               ++ " has been escalated due to unsatisfactory resolution")
            (_id c1)]
     | None => []
     end
     ++ [notifyEvent env (assignedAgency c1) "Complaint Escalated"
           ("Complaint " ++ complaintId c1 ++ " has been escalated. Rating: "
              ++ Js.toString rating0 ++ "/5") (_id c1)])%list.

Lemma submitFeedback_run env db id rating0 comment0 actor :
  run (submitFeedback id rating0 comment0 actor) env db =
  match lookup db id with
  | inl e => failed e db
  | inr c =>
      if negb (Status_eqb (status c) resolved) then failed MustBeResolved db
      else
        let c1 := feedbackStep (now env) (users env) rating0 comment0 actor c in
        match validate c1 with
        | Some e =>
            (inl e, db,
             ([StartTransaction] ++ feedbackEvents env rating0 c1
                ++ [AbortTransaction])%list)
        | None =>
            (inr c1, upsert c1 db,
             ([StartTransaction] ++ feedbackEvents env rating0 c1
                ++ [Saved c1; CommitTransaction])%list)
        end
  end.
Proof.
  unfold run, submitFeedback, withTransaction.
  unfold bind at 1. unfold emit at 1. unfold bind at 1.
  rewrite findById_run. cbn [committed].
  destruct (lookup db id) as [e | c]; [reflexivity |].
  destruct (negb (Status_eqb (status c) resolved)); [reflexivity |].
  unfold bind at 1. unfold newDate at 1.
  unfold feedbackStep, feedbackEvents.
  destruct (3 <=? rating0).
  - unfold bind at 1. unfold bind at 1. rewrite sendNotification_run.
    unfold ret at 1. unfold bind at 1. rewrite save_existing_run.
    match goal with
    | |- context [validate ?x] =>
        change x with (closeStep (now env) rating0 comment0 actor c)
    end.
    destruct (validate (closeStep (now env) rating0 comment0 actor c));
      reflexivity.
  - unfold bind at 1. unfold bind at 1. unfold getUsers at 1.
    unfold escalateStep.
    destruct (findAppellateAuthority (users env)) as [appellate |].
    + unfold bind at 1. unfold bind at 1. rewrite sendNotification_run.
      unfold ret at 1. unfold bind at 1. rewrite sendNotification_run.
      unfold ret at 1. unfold bind at 1. rewrite save_existing_run.
      match goal with
      | |- context [match validate ?x with _ => _ end] =>
          destruct (validate x); reflexivity
      end.
    + unfold bind at 1. unfold ret at 1.
      unfold bind at 1. rewrite sendNotification_run.
      unfold ret at 1. unfold bind at 1. rewrite save_existing_run.
      match goal with
      | |- context [match validate ?x with _ => _ end] =>
          destruct (validate x); reflexivity
      end.
Qed.

(** The number of complaints created in the calendar month of [date], as
    the hook counts them. *)
Definition monthCount (date : Date) (db : list Complaint) : Z :=
  countCreatedBetween
    (firstOfMonth (getFullYear date) (getMonth date))
    (firstOfMonth (getFullYear date) (getMonth date + 1)) db.

(** What the hook does to a new document. *)
Lemma preSave_new_run c env st :
  preSave true c env st
  = (inr (set_complaintId
            (formatComplaintId (now env) (monthCount (now env) (committed st)))
            c), st).
Proof. reflexivity. Qed.

Lemma save_new_run c env st :
  save true c env st =
  match validate c with
  | Some e => (inl e, st)
  | None =>
      let c' :=
        set_complaintId
          (formatComplaintId (now env) (monthCount (now env) (committed st)))
          c in
      match duplicateKey c' (committed st) with
      | Some e => (inl e, st)
      | None => (inr c', mkStore (committed st) (staged st ++ [c'])
                           (trace st ++ [Saved c']))
      end
  end.
Proof.
  unfold save. destruct (validate c); [reflexivity |].
  unfold preSave, bind, ret, throw, getCommitted, emit, newDate, monthCount.
  cbv zeta.
  match goal with
  | |- context [match duplicateKey ?x ?y with _ => _ end] =>
      destruct (duplicateKey x y)
  end; reflexivity.
Qed.

Lemma notifyAll_run agencies title text ref env st :
  notifyAll agencies title text ref env st =
  (inr tt,
   mkStore (committed st) (staged st)
     (trace st
        ++ map (fun agency =>
                  notifyEvent env (Some (u_id agency)) title text ref)
             agencies)).
Proof.
  revert st. induction agencies as [| agency rest IH]; intros st.
  - simpl. unfold ret. rewrite app_nil_r. destruct st; reflexivity.
  - cbn [notifyAll map]. unfold bind at 1. rewrite sendNotification_run.
    rewrite IH. cbn [committed staged trace].
    rewrite <- app_assoc. reflexivity.
Qed.

(** [createComplaint] builds the document without an identifier and saves
    it: the validators refuse it before the hook can supply one. *)
Lemma createComplaint_run env db oid data user :
  run (createComplaint oid data user) env db
  = failed (ValidationFailed "complaintId") db.
Proof.
  unfold run, createComplaint, withTransaction.
  unfold bind at 1. unfold emit at 1. unfold bind at 1.
  unfold newDate at 1. unfold bind at 1. rewrite save_new_run.
  reflexivity.
Qed.

(** ** The collection *)

Lemma find_by_id (db : list Complaint) id c :
  find (fun d => (_id d =? id)%string) db = Some c -> _id c = id /\ In c db.
Proof.
  intros H. apply find_some in H. destruct H as [Hin Heq].
  apply String.eqb_eq in Heq. split; assumption.
Qed.

Lemma lookup_found db id c :
  lookup db id = inr c ->
  isObjectId id = true /\ _id c = canonicalId id /\ In c db
  /\ find (fun d => (_id d =? canonicalId id)%string) db = Some c.
Proof.
  unfold lookup. destruct (isObjectId id); [| discriminate].
  destruct (find _ db) as [d |] eqn:Hf; [| discriminate].
  intros H. injection H as ->. apply find_by_id in Hf as H'.
  destruct H' as [H1 H2]. repeat split; assumption.
Qed.

Lemma find_upsert db c c1 :
  find (fun d => (_id d =? _id c)%string) db = Some c ->
  _id c1 = _id c ->
  find (fun d => (_id d =? _id c)%string) (upsert c1 db) = Some c1.
Proof.
  intros Hf Hid. induction db as [| d db IH]; [discriminate |].
  cbn [find upsert] in *. rewrite Hid.
  destruct (_id d =? _id c)%string eqn:E.
  - cbn [find]. rewrite Hid, String.eqb_refl. reflexivity.
  - cbn [find]. rewrite E. apply IH. assumption.
Qed.

Lemma lookup_upsert db id c c1 :
  lookup db id = inr c -> _id c1 = _id c -> lookup (upsert c1 db) id = inr c1.
Proof.
  intros H Hid. apply lookup_found in H. destruct H as (Hv & Hc & _ & Hf).
  unfold lookup. rewrite Hv. rewrite <- Hc in *.
  rewrite (find_upsert _ _ _ Hf Hid). reflexivity.
Qed.

(** Replacing a document leaves the collection as long as it was and
    leaves every other document in place. *)
Lemma upsert_replace db c c1 :
  find (fun d => (_id d =? _id c)%string) db = Some c ->
  _id c1 = _id c ->
  exists pre post,
    db = (pre ++ c :: post)%list
    /\ upsert c1 db = (pre ++ c1 :: post)%list
    /\ (forall d, In d pre -> _id d <> _id c).
Proof.
  intros Hf Hid. induction db as [| d db IH]; [discriminate |].
  cbn [find upsert] in *. rewrite Hid.
  destruct (_id d =? _id c)%string eqn:E.
  - injection Hf as ->. exists [], db. repeat split. intros d [].
  - destruct (IH Hf) as (pre & post & H1 & H2 & H3).
    exists (d :: pre), post. cbn [app]. rewrite <- H1, <- H2.
    repeat split. intros d' [<- | Hin].
    + apply String.eqb_neq. assumption.
    + apply H3. assumption.
Qed.

Lemma upsert_fresh db c1 :
  existsb (fun d => (_id d =? _id c1)%string) db = false ->
  upsert c1 db = (db ++ [c1])%list.
Proof.
  induction db as [| d db IH]; [reflexivity |].
  cbn [existsb upsert app]. intros H.
  apply orb_false_iff in H. destruct H as [H1 H2].
  rewrite H1, (IH H2). reflexivity.
Qed.

(** The validators read no field a transition writes, the rating apart. *)
Lemma validate_resolveStep date notes0 actor c :
  validate (resolveStep date notes0 actor c) = validate c.
Proof. reflexivity. Qed.

Lemma validate_finalizeStep date res actor c :
  validate (finalizeStep date res actor c) = validate c.
Proof. reflexivity. Qed.

Lemma validate_assignStep date agencyId agency actor c :
  validate (assignStep date agencyId agency actor c) = validate c.
Proof. reflexivity. Qed.

Lemma validate_staffStep date staffId staff actor c :
  validate (staffStep date staffId staff actor c) = validate c.
Proof. reflexivity. Qed.

Lemma validate_feedbackStep date us r cm actor c :
  validate c = None -> 1 <= r <= 5 ->
  validate (feedbackStep date us r cm actor c) = None.
Proof.
  intros Hv Hr. unfold validate in *.
  assert (Hrange : (r <? 1) || (5 <? r) = false).
  { apply orb_false_iff. split; apply Z.ltb_ge; lia. }
  unfold feedbackStep, escalateStep.
  destruct (3 <=? r); [| destruct (findAppellateAuthority us)];
    cbn [closeStep history_push set_closedAt set_status set_feedback
         set_escalation complaintId resourceId category subcategory
         description feedback rating] in *;
    destruct (complaintId c =? "")%string; try discriminate;
    destruct (negb (isObjectId (resourceId c))); try discriminate;
    destruct (negb (existsb (String.eqb (category c)) categoryEnum));
      try discriminate;
    destruct (subcategory c =? "")%string; try discriminate;
    destruct (description c =? "")%string; try discriminate;
    destruct (1000 <? String.length (description c))%nat; try discriminate;
    rewrite Hrange; reflexivity.
Qed.

Definition countHistory (s : Status) (h : list HistoryEntry) : nat :=
  List.length (filter (fun e => Status_eqb (h_status e) s) h).

Lemma countHistory_app s h1 h2 :
  countHistory s (h1 ++ h2) = (countHistory s h1 + countHistory s h2)%nat.
Proof. unfold countHistory. rewrite filter_app, length_app. reflexivity. Qed.

(** ** Feedback: the satisfaction threshold *)

Definition approvedSuperAdmin (u : User) : Prop :=
  role u = "superAdmin" /\ u_status u = "approved".

(** [o] is the [_id] of the first approved superAdmin of the user
    collection, or nothing when the collection has none. *)
Definition firstApprovedSuperAdmin (us : list User) (o : option ObjectId)
    : Prop :=
  match o with
  | Some id =>
      exists pre a post,
        us = (pre ++ a :: post)%list /\ approvedSuperAdmin a /\ u_id a = id
        /\ forall u, In u pre -> ~ approvedSuperAdmin u
  | None => forall u, In u us -> ~ approvedSuperAdmin u
  end.

Lemma approvedSuperAdmin_test u :
  (role u =? "superAdmin")%string && (u_status u =? "approved")%string = true
  <-> approvedSuperAdmin u.
Proof.
  unfold approvedSuperAdmin. rewrite andb_true_iff, !String.eqb_eq. tauto.
Qed.

Lemma findAppellateAuthority_first us :
  firstApprovedSuperAdmin us (option_map u_id (findAppellateAuthority us)).
Proof.
  unfold findAppellateAuthority.
  induction us as [| u us IH]; cbn [find option_map firstApprovedSuperAdmin].
  - intros u [].
  - destruct ((role u =? "superAdmin")%string
              && (u_status u =? "approved")%string) eqn:E.
    + exists [], u, us. repeat split; try (apply approvedSuperAdmin_test in E; apply E).
      intros v [].
    + assert (Hu : ~ approvedSuperAdmin u).
      { intros H. apply approvedSuperAdmin_test in H. congruence. }
      destruct (find _ us) as [a |]; cbn [option_map firstApprovedSuperAdmin] in *.
      * destruct IH as (pre & a' & post & H1 & H2 & H3 & H4).
        exists (u :: pre), a', post. cbn [app]. rewrite <- H1.
        repeat split; try assumption; try apply H2.
        intros v [<- | Hin]; [assumption | apply H4; assumption].
      * intros v [<- | Hin]; [assumption | apply IH; assumption].
Qed.

Lemma status_eqb_refl s : Status_eqb s s = true.
Proof. destruct s; reflexivity. Qed.

Lemma status_eqb_eq a b : Status_eqb a b = true <-> a = b.
Proof. destruct a, b; cbn; split; intros H; try reflexivity; discriminate. Qed.

Lemma status_eqb_neq a b : a <> b -> negb (Status_eqb a b) = true.
Proof.
  intros H. destruct (Status_eqb a b) eqn:E; [| reflexivity].
  apply status_eqb_eq in E. contradiction.
Qed.

(** C1.  On a resolved complaint, feedback with a rating from 1 to 5 is
    accepted and recorded, and the rating decides the outcome at the
    threshold 3.  A rating of 3 or more closes the complaint and sets
    [closedAt].  A rating below 3 escalates it: the escalation reason is
    the comment when there is a non-empty one and the default text
    otherwise, and the appellate authority is the first approved
    superAdmin of the user collection. *)
Theorem submitFeedback_threshold env db id c rating0 comment0 actor :
  lookup db id = inr c ->
  validate c = None ->
  status c = resolved ->
  1 <= rating0 <= 5 ->
  exists c1 tr,
    run (submitFeedback id rating0 comment0 actor) env db
    = (inr c1, upsert c1 db, tr)
    /\ lookup (upsert c1 db) id = inr c1
    /\ feedback c1 = mkFeedback (Some rating0) comment0 (Some (now env))
    /\ (3 <= rating0 ->
          status c1 = closed /\ closedAt c1 = Some (now env)
          /\ escalation c1 = escalation c)
    /\ (rating0 < 3 ->
          status c1 = escalated
          /\ (forall s, comment0 = Some s -> s <> "" ->
                reason (escalation c1) = Some s)
          /\ (comment0 = None \/ comment0 = Some "" ->
                reason (escalation c1)
                = Some "User not satisfied with resolution")
          /\ firstApprovedSuperAdmin (users env)
               (appellateAuthority (escalation c1))).
Proof.
  intros Hl Hv Hs Hr.
  pose proof (validate_feedbackStep (now env) (users env) rating0 comment0
                actor c Hv Hr) as Hv1.
  rewrite submitFeedback_run, Hl, Hs. cbn [Status_eqb negb]. cbv zeta.
  rewrite Hv1.
  eexists. eexists. split; [reflexivity |].
  apply lookup_found in Hl as Hl'. destruct Hl' as (_ & Hid & _).
  split.
  { apply (lookup_upsert _ _ _ _ Hl).
    unfold feedbackStep, escalateStep.
    destruct (3 <=? rating0); [| destruct (findAppellateAuthority (users env))];
      reflexivity. }
  unfold feedbackStep, escalateStep.
  split.
  { destruct (3 <=? rating0); [| destruct (findAppellateAuthority (users env))];
      reflexivity. }
  split.
  - intros H3. apply Z.leb_le in H3. rewrite H3. repeat split.
  - intros H3. apply Z.leb_gt in H3. rewrite H3.
    pose proof (findAppellateAuthority_first (users env)) as Hfirst.
    destruct (findAppellateAuthority (users env)) as [a |];
      cbn [option_map] in Hfirst.
    + repeat split; cbn.
      * intros s -> Hne. cbn. apply String.eqb_neq in Hne. rewrite Hne.
        reflexivity.
      * intros [-> | ->]; reflexivity.
      * exact Hfirst.
    + repeat split; cbn.
      * intros s -> Hne. cbn. apply String.eqb_neq in Hne. rewrite Hne.
        reflexivity.
      * intros [-> | ->]; reflexivity.
      * exact Hfirst.
Qed.

Lemma submitFeedback_threshold_witness :
  lookup Sample.resolved1 Sample.id1 = inr Sample.c_resolved
  /\ validate Sample.c_resolved = None
  /\ status Sample.c_resolved = resolved
  /\ exists c1 tr,
       run (submitFeedback Sample.id1 3 None (u_id Sample.alice)) Sample.env
         Sample.resolved1
       = (inr c1, upsert c1 Sample.resolved1, tr)
       /\ status c1 = closed.
Proof.
  split; [reflexivity |]. split; [reflexivity |]. split; [reflexivity |].
  destruct (submitFeedback_threshold Sample.env Sample.resolved1 Sample.id1
              Sample.c_resolved 3 None (u_id Sample.alice)
              eq_refl eq_refl eq_refl ltac:(lia))
    as (c1 & tr & Hrun & _ & _ & Hclose & _).
  exists c1, tr. split; [exact Hrun |]. apply Hclose. lia.
Defined.

(** The boundary: a rating of exactly 3 closes, a rating of 2 escalates. *)
Example feedback_rating_3_closes :
  map status
    (replay Sample.env [GiveFeedback Sample.id1 3 None (u_id Sample.alice)]
       Sample.resolved1) = [closed].
Proof. reflexivity. Qed.

Example feedback_rating_2_escalates :
  map (fun c => (status c, appellateAuthority (escalation c)))
    (replay Sample.env [GiveFeedback Sample.id1 2 None (u_id Sample.alice)]
       Sample.resolved1) = [(escalated, Some (u_id Sample.root))].
Proof. reflexivity. Qed.

(** ** Resolve *)

(** C4.  [resolveComplaint] succeeds on a complaint whose status is
    [assigned]: the status becomes [resolved], [resolvedAt] and
    [resolutionNotes] are set and one history entry with status resolved
    is appended.  From any other status it throws the InvalidState error
    and the collection is as before.  So a second call right after a
    successful one fails, whatever its arguments, and the two calls
    together add exactly one resolved entry to the history. *)
Theorem resolve_once env db id c notes0 actor :
  lookup db id = inr c ->
  validate c = None ->
  (status c = assigned ->
     exists c1 tr,
       run (resolveComplaint id notes0 actor) env db
       = (inr c1, upsert c1 db, tr)
       /\ lookup (upsert c1 db) id = inr c1
       /\ status c1 = resolved
       /\ resolvedAt c1 = Some (now env)
       /\ resolutionNotes c1 = notes0
       /\ history c1
          = (history c ++ [mkHistoryEntry resolved actor (now env) notes0])%list
       /\ (forall env' notes' actor',
             run (resolveComplaint id notes' actor') env' (upsert c1 db)
             = failed MustBeAssigned (upsert c1 db))
       /\ countHistory resolved (history c1)
          = S (countHistory resolved (history c))
       /\ (countHistory resolved (history c) = 0%nat ->
             countHistory resolved (history c1) = 1%nat))
  /\ (status c <> assigned ->
        run (resolveComplaint id notes0 actor) env db
        = failed MustBeAssigned db)
  /\ InvalidState MustBeAssigned.
Proof.
  intros Hl Hv. split; [| split].
  - intros Hs. rewrite resolveComplaint_run, Hl, Hs.
    cbn [Status_eqb negb]. cbv zeta. rewrite validate_resolveStep, Hv.
    set (c1 := resolveStep (now env) notes0 actor c).
    assert (Hl1 : lookup (upsert c1 db) id = inr c1)
      by (apply (lookup_upsert _ _ _ _ Hl); reflexivity).
    assert (Hcount : countHistory resolved (history c1)
                     = S (countHistory resolved (history c))).
    { subst c1. cbn [resolveStep history_push history].
      rewrite countHistory_app. apply Nat.add_1_r. }
    exists c1. eexists. split; [reflexivity |].
    repeat split; try assumption.
    + intros env' notes' actor'.
      rewrite resolveComplaint_run, Hl1. reflexivity.
    + intros H0. rewrite Hcount, H0. reflexivity.
  - intros Hs. rewrite resolveComplaint_run, Hl.
    rewrite (status_eqb_neq _ _ Hs). reflexivity.
  - unfold InvalidState. auto.
Qed.

Lemma resolve_once_witness :
  lookup Sample.assigned1 Sample.id1 = inr Sample.c_assigned
  /\ validate Sample.c_assigned = None
  /\ status Sample.c_assigned = assigned
  /\ exists c1 tr,
       run (resolveComplaint Sample.id1 (Some "Lamp replaced")
              (u_id Sample.bob)) Sample.env Sample.assigned1
       = (inr c1, upsert c1 Sample.assigned1, tr)
       /\ status c1 = resolved
       /\ countHistory resolved (history c1) = 1%nat.
Proof.
  split; [reflexivity |]. split; [reflexivity |]. split; [reflexivity |].
  destruct (proj1 (resolve_once Sample.env Sample.assigned1 Sample.id1
                     Sample.c_assigned (Some "Lamp replaced")
                     (u_id Sample.bob) eq_refl eq_refl) eq_refl)
    as (c1 & tr & Hrun & _ & Hs & _ & _ & _ & _ & _ & Hone).
  exists c1, tr. split; [exact Hrun |]. split; [exact Hs |].
  apply Hone. reflexivity.
Defined.

(** The scenario of the claim on the sample complaint: the first call
    succeeds, the second is refused and changes nothing. *)
Example resolve_twice :
  let first :=
    run (resolveComplaint Sample.id1 (Some "Lamp replaced") (u_id Sample.bob))
      Sample.env Sample.assigned1 in
  let second :=
    run (resolveComplaint Sample.id1 (Some "Lamp replaced") (u_id Sample.bob))
      Sample.env (snd (fst first)) in
  snd (fst first) = Sample.resolved1
  /\ second = failed MustBeAssigned Sample.resolved1
  /\ map (fun c => countHistory resolved (history c)) (snd (fst second))
     = [1%nat].
Proof. repeat split. Qed.

(** ** Final resolution *)

(** C5.  [finalizeComplaint] succeeds on a complaint whose status is
    [escalated]: the status becomes [finalResolution], the final
    resolution text, [finalResolvedAt] and [closedAt] are recorded and one
    history entry is appended.  From any other status it throws the
    InvalidState error, and the collection is as before. *)
Theorem finalize_only_escalated env db id c resolution actor :
  lookup db id = inr c ->
  validate c = None ->
  (status c = escalated ->
     exists c1 tr,
       run (finalizeComplaint id resolution actor) env db
       = (inr c1, upsert c1 db, tr)
       /\ lookup (upsert c1 db) id = inr c1
       /\ status c1 = finalResolution
       /\ finalResolutionText (escalation c1) = Some resolution
       /\ finalResolvedAt (escalation c1) = Some (now env)
       /\ closedAt c1 = Some (now env)
       /\ history c1
          = (history c
               ++ [mkHistoryEntry finalResolution actor (now env)
                     (Some ("Final resolution: " ++ resolution)%string)])%list)
  /\ (status c <> escalated ->
        run (finalizeComplaint id resolution actor) env db
        = failed OnlyEscalated db)
  /\ InvalidState OnlyEscalated.
Proof.
  intros Hl Hv. split; [| split].
  - intros Hs. rewrite finalizeComplaint_run, Hl, Hs.
    cbn [Status_eqb negb]. cbv zeta. rewrite validate_finalizeStep, Hv.
    eexists. eexists. split; [reflexivity |].
    split; [apply (lookup_upsert _ _ _ _ Hl); reflexivity |].
    repeat split.
  - intros Hs. rewrite finalizeComplaint_run, Hl.
    rewrite (status_eqb_neq _ _ Hs). reflexivity.
  - unfold InvalidState. auto.
Qed.

Lemma finalize_only_escalated_witness :
  lookup Sample.escalated1 Sample.id1 = inr Sample.c_escalated
  /\ validate Sample.c_escalated = None
  /\ status Sample.c_escalated = escalated
  /\ exists c1 tr,
       run (finalizeComplaint Sample.id1 "repaired" (u_id Sample.root))
         Sample.env Sample.escalated1
       = (inr c1, upsert c1 Sample.escalated1, tr)
       /\ status c1 = finalResolution.
Proof.
  split; [reflexivity |]. split; [reflexivity |]. split; [reflexivity |].
  destruct (proj1 (finalize_only_escalated Sample.env Sample.escalated1
                     Sample.id1 Sample.c_escalated "repaired"
                     (u_id Sample.root) eq_refl eq_refl) eq_refl)
    as (c1 & tr & Hrun & _ & Hs & _).
  exists c1, tr. split; [exact Hrun | exact Hs].
Defined.

(** Scenario D: final resolution attempted on a pending complaint. *)
Example finalize_pending_refused :
  run (finalizeComplaint Sample.id1 "repaired" (u_id Sample.root))
    Sample.env Sample.submitted
  = failed OnlyEscalated Sample.submitted.
Proof. reflexivity. Qed.

(** ** Assignment to staff *)

(** [id] names an approved user whose role is one of [roles]. *)
Definition approvedAs (roles : list string) (us : list User) (id : string)
    : Prop :=
  isObjectId id = true
  /\ exists u, In u us /\ u_id u = canonicalId id /\ In (role u) roles
               /\ u_status u = "approved".

Lemma existsb_eqb_In (x : string) (l : list string) :
  existsb (String.eqb x) l = true <-> In x l.
Proof.
  rewrite existsb_exists. split.
  - intros (y & Hin & Heq). apply String.eqb_eq in Heq. subst. assumption.
  - intros Hin. exists x. split; [assumption | apply String.eqb_refl].
Qed.

Lemma lookupUser_approved roles us id :
  approvedAs roles us id ->
  exists u, lookupUser us id roles = inr (Some u) /\ u_id u = canonicalId id
            /\ In (role u) roles /\ u_status u = "approved".
Proof.
  intros (Hv & u & Hin & Hid & Hrole & Hst).
  unfold lookupUser. rewrite Hv.
  destruct (find _ us) as [v |] eqn:Hf.
  - exists v. split; [reflexivity |].
    apply find_some in Hf. destruct Hf as [_ Hp].
    apply andb_true_iff in Hp. destruct Hp as [Hp H3].
    apply andb_true_iff in Hp. destruct Hp as [H1 H2].
    apply String.eqb_eq in H1, H3. apply existsb_eqb_In in H2. auto.
  - exfalso. pose proof (find_none _ _ Hf u Hin) as Hp. cbv beta in Hp.
    rewrite Hid, Hst, String.eqb_refl in Hp.
    apply existsb_eqb_In in Hrole. rewrite Hrole in Hp. discriminate.
Qed.

(** What [assignToStaff] does whenever its two lookups succeed: it reads
    neither the status nor the assigned agency of the complaint. *)
Lemma assignToStaff_keeps_status env db id c staffId actor :
  lookup db id = inr c ->
  validate c = None ->
  approvedAs ["maintenanceStaff"] (users env) staffId ->
  exists c1 tr note,
    run (assignToStaff id staffId actor) env db = (inr c1, upsert c1 db, tr)
    /\ lookup (upsert c1 db) id = inr c1
    /\ assignedStaff c1 = Some (canonicalId staffId)
    /\ history c1
       = (history c ++ [mkHistoryEntry (status c) actor (now env) note])%list
    /\ status c1 = status c
    /\ assignedAgency c1 = assignedAgency c.
Proof.
  intros Hl Hv Hs. apply lookupUser_approved in Hs.
  destruct Hs as (staff & Hu & _).
  rewrite assignToStaff_run, Hl, Hu. cbv zeta.
  rewrite validate_staffStep, Hv.
  eexists. eexists. eexists. split; [reflexivity |].
  split; [apply (lookup_upsert _ _ _ _ Hl); reflexivity |].
  repeat split.
Qed.

(** C6, the failing input: a pending complaint with no agency assigned.
    [assignToStaff] with an approved maintenanceStaff user succeeds on it:
    the staff is set while the agency is still absent.  The status stays
    and one history entry is appended, as the claim says. *)
Theorem assignToStaff_without_agency :
  (status Sample.c_submitted, assignedAgency Sample.c_submitted,
   assignedStaff Sample.c_submitted) = (pending, None, None)
  /\ exists c1 tr e,
       run (assignToStaff Sample.id1 (u_id Sample.dave) (u_id Sample.bob))
         Sample.env Sample.submitted
       = (inr c1, [c1], tr)
       /\ (status c1, assignedAgency c1, assignedStaff c1)
          = (pending, None, Some (u_id Sample.dave))
       /\ history c1 = (history Sample.c_submitted ++ [e])%list.
Proof.
  split; [reflexivity |].
  eexists. eexists. eexists. split; [vm_compute; reflexivity |].
  split; reflexivity.
Qed.

(** ** Assignment to an agency and the transition graph *)

(** [assignComplaint] reads the complaint's status nowhere: whatever the
    status, an approved agency is enough for it to succeed and to set the
    status to [assigned]. *)
Lemma assignComplaint_any_status env db id c agencyId actor :
  lookup db id = inr c ->
  validate c = None ->
  approvedAs ["departmentAdmin"; "maintenanceStaff"] (users env) agencyId ->
  exists c1 tr note,
    run (assignComplaint id agencyId actor) env db = (inr c1, upsert c1 db, tr)
    /\ lookup (upsert c1 db) id = inr c1
    /\ status c1 = assigned
    /\ assignedAgency c1 = Some (canonicalId agencyId)
    /\ assignedAt c1 = Some (now env)
    /\ history c1
       = (history c ++ [mkHistoryEntry assigned actor (now env) note])%list.
Proof.
  intros Hl Hv Ha. apply lookupUser_approved in Ha.
  destruct Ha as (agency & Hu & _).
  rewrite assignComplaint_run, Hl, Hu. cbv zeta.
  rewrite validate_assignStep, Hv.
  eexists. eexists. eexists. split; [reflexivity |].
  split; [apply (lookup_upsert _ _ _ _ Hl); reflexivity |].
  repeat split.
Qed.

(** C2, the failing input: a closed complaint is assigned again.  The
    call succeeds, the status leaves the terminal state [closed] for
    [assigned], which is no edge of the graph, and the history grows. *)
Theorem assignComplaint_reopens_closed :
  status Sample.c_closed = closed
  /\ graph closed assigned = false
  /\ exists c1 tr,
       run (assignComplaint Sample.id1 (u_id Sample.bob) (u_id Sample.root))
         Sample.env Sample.closed1
       = (inr c1, [c1], tr)
       /\ status c1 = assigned
       /\ List.length (history c1) = S (List.length (history Sample.c_closed)).
Proof.
  split; [reflexivity |]. split; [reflexivity |].
  eexists. eexists. split; [vm_compute; reflexivity |].
  split; reflexivity.
Qed.

(** The operations that do check the status keep to the graph: when one of
    them succeeds on a stored complaint, the status either stays (staff
    assignment) or moves along an edge. *)
Lemma guarded_operations_follow_graph env db op id c c1 db' tr :
  match op with
  | AssignStaff i _ _ | Resolve i _ _ | GiveFeedback i _ _ _
  | Finalize i _ _ => i = id
  | _ => False
  end ->
  lookup db id = inr c ->
  run (exec op) env db = (inr c1, db', tr) ->
  status c1 = status c \/ graph (status c) (status c1) = true.
Proof.
  intros Hop Hl Hrun.
  destruct op as [oid data user | i a actor | i s actor | i n actor
                 | i r cm actor | i res actor];
    try contradiction; subst i; cbn [exec] in Hrun.
  - rewrite assignToStaff_run, Hl in Hrun.
    destruct (lookupUser _ _ _) as [e | [staff |]]; try discriminate.
    cbv zeta in Hrun. destruct (validate _); [discriminate |].
    injection Hrun as <- _ _. left. reflexivity.
  - rewrite resolveComplaint_run, Hl in Hrun.
    destruct (Status_eqb (status c) assigned) eqn:E; [| discriminate].
    apply status_eqb_eq in E. cbn [negb] in Hrun. cbv zeta in Hrun.
    destruct (validate _); [discriminate |].
    injection Hrun as <- _ _. right. rewrite E. reflexivity.
  - rewrite submitFeedback_run, Hl in Hrun.
    destruct (Status_eqb (status c) resolved) eqn:E; [| discriminate].
    apply status_eqb_eq in E. cbn [negb] in Hrun. cbv zeta in Hrun.
    destruct (validate _); [discriminate |].
    injection Hrun as <- _ _. right. rewrite E.
    unfold feedbackStep, escalateStep.
    destruct (3 <=? r); [| destruct (findAppellateAuthority (users env))];
      reflexivity.
  - rewrite finalizeComplaint_run, Hl in Hrun.
    destruct (Status_eqb (status c) escalated) eqn:E; [| discriminate].
    apply status_eqb_eq in E. cbn [negb] in Hrun. cbv zeta in Hrun.
    destruct (validate _); [discriminate |].
    injection Hrun as <- _ _. right. rewrite E. reflexivity.
Qed.

(** An operation on an existing complaint that throws commits nothing. *)
Lemma failure_commits_nothing env db op e db' tr :
  run (exec op) env db = (inl e, db', tr) ->
  db' = db /\ ~ In CommitTransaction tr.
Proof.
  intros Hrun.
  destruct op as [oid data user | i a actor | i s actor | i n actor
                 | i r cm actor | i res actor]; cbn [exec] in Hrun.
  - rewrite createComplaint_run in Hrun.
    injection Hrun as <- <- <-. split; [reflexivity |].
    intros [H | [H | []]]; discriminate.
  - rewrite assignComplaint_run in Hrun.
    destruct (lookup db i) as [e' | c];
      [injection Hrun as <- <- <-; split; [reflexivity |];
       intros [H | [H | []]]; discriminate |].
    destruct (lookupUser _ _ _) as [e' | [agency |]];
      try (injection Hrun as <- <- <-; split; [reflexivity |];
           intros [H | [H | []]]; discriminate).
    cbv zeta in Hrun. destruct (validate _) as [e' |]; [| discriminate].
    injection Hrun as <- <- <-; split; [reflexivity |];
      intros [H | [H | []]]; discriminate.
  - rewrite assignToStaff_run in Hrun.
    destruct (lookup db i) as [e' | c];
      [injection Hrun as <- <- <-; split; [reflexivity |];
       intros [H | [H | []]]; discriminate |].
    destruct (lookupUser _ _ _) as [e' | [staff |]];
      try (injection Hrun as <- <- <-; split; [reflexivity |];
           intros [H | [H | []]]; discriminate).
    cbv zeta in Hrun. destruct (validate _) as [e' |]; [| discriminate].
    injection Hrun as <- <- <-; split; [reflexivity |];
      intros [H | [H | []]]; discriminate.
  - rewrite resolveComplaint_run in Hrun.
    destruct (lookup db i) as [e' | c];
      [injection Hrun as <- <- <-; split; [reflexivity |];
       intros [H | [H | []]]; discriminate |].
    destruct (negb _);
      [injection Hrun as <- <- <-; split; [reflexivity |];
       intros [H | [H | []]]; discriminate |].
    cbv zeta in Hrun. destruct (validate _) as [e' |]; [| discriminate].
    injection Hrun as <- <- <-; split; [reflexivity |];
      intros [H | [H | []]]; discriminate.
  - rewrite submitFeedback_run in Hrun.
    destruct (lookup db i) as [e' | c];
      [injection Hrun as <- <- <-; split; [reflexivity |];
       intros [H | [H | []]]; discriminate |].
    destruct (negb _);
      [injection Hrun as <- <- <-; split; [reflexivity |];
       intros [H | [H | []]]; discriminate |].
    cbv zeta in Hrun. destruct (validate _) as [e' |]; [| discriminate].
    injection Hrun as <- <- <-. split; [reflexivity |].
    intros Hin. cbn [app] in Hin. destruct Hin as [H | Hin]; [discriminate |].
    apply in_app_or in Hin. destruct Hin as [Hin | [H | []]]; [| discriminate].
    unfold feedbackEvents, notifyEvent in Hin.
    destruct (3 <=? r).
    + destruct Hin as [H | []]. destruct (delivers _ _ _); discriminate.
    + apply in_app_or in Hin. destruct Hin as [Hin | [H | []]].
      * destruct (findAppellateAuthority _); [| destruct Hin].
        destruct Hin as [H | []]. destruct (delivers _ _ _); discriminate.
      * destruct (delivers _ _ _); discriminate.
  - rewrite finalizeComplaint_run in Hrun.
    destruct (lookup db i) as [e' | c];
      [injection Hrun as <- <- <-; split; [reflexivity |];
       intros [H | [H | []]]; discriminate |].
    destruct (negb _);
      [injection Hrun as <- <- <-; split; [reflexivity |];
       intros [H | [H | []]]; discriminate |].
    cbv zeta in Hrun. destruct (validate _) as [e' |]; [| discriminate].
    injection Hrun as <- <- <-; split; [reflexivity |];
      intros [H | [H | []]]; discriminate.
Qed.

(** ** Feedback through the route: who may give it *)

Lemma run_respond {A} (ok : Z) (m : M A) env db :
  run (Controller.respond ok m) env db =
  match run m env db with
  | (inr a, db', tr) => (inr (mkResponse ok (Data a)), db', tr)
  | (inl e, db', tr) => (inr (mkResponse 500 (Failure (message e))), db', tr)
  end.
Proof.
  unfold run, Controller.respond.
  destruct (m env (mkStore db [] [])) as [[e | a] st]; reflexivity.
Qed.


(** A principal whose role is not resident is stopped at the gate, before
    anything is read or written. *)
Lemma put_feedback_gate id rating0 comment0 user env db :
  role user <> "resident" ->
  run (Routes.put_feedback id rating0 comment0 user) env db
  = (inr (mkResponse 403 (Failure "Forbidden")), db, []).
Proof.
  intros Hrole. unfold Routes.put_feedback, Routes.checkRole.
  cbn [existsb]. apply String.eqb_neq in Hrole. rewrite Hrole. reflexivity.
Qed.



(** ** Query scoping *)

Lemma In_insertSorted le (c x : Complaint) l :
  In c (insertSorted le x l) <-> c = x \/ In c l.
Proof.
  induction l as [| d l IH]; cbn [insertSorted].
  - cbn. intuition.
  - destruct (le x d); cbn [In]; [intuition |].
    rewrite IH. intuition.
Qed.

Lemma In_sortDocs field order c l :
  In c (sortDocs field order l) <-> In c l.
Proof.
  unfold sortDocs. induction l as [| d l IH]; cbn [fold_right].
  - reflexivity.
  - rewrite In_insertSorted, IH. cbn. intuition.
Qed.

Lemma length_insertSorted le (x : Complaint) l :
  List.length (insertSorted le x l) = S (List.length l).
Proof.
  induction l as [| d l IH]; cbn [insertSorted]; [reflexivity |].
  destruct (le x d); cbn [List.length]; [reflexivity |].
  rewrite IH. reflexivity.
Qed.

Lemma length_sortDocs field order l :
  List.length (sortDocs field order l) = List.length l.
Proof.
  unfold sortDocs. induction l as [| d l IH]; cbn [fold_right];
    [reflexivity |].
  rewrite length_insertSorted, IH. reflexivity.
Qed.

Lemma In_page {A} (n k : nat) (l : list A) x :
  In x (firstn n (skipn k l)) -> In x l.
Proof.
  intros H. rewrite <- (firstn_skipn k l). apply in_or_app. right.
  rewrite <- (firstn_skipn n (skipn k l)). apply in_or_app. left. exact H.
Qed.

(** Every document of a page is a document of the collection that matches
    the query, and the total is the number of matching documents. *)
Lemma paginate_sound q page0 limit field order db :
  (forall c, In c (docs (paginate q page0 limit field order db)) ->
             In c db /\ matches q c = true)
  /\ totalDocs (paginate q page0 limit field order db)
     = Z.of_nat (List.length (filter (matches q) db)).
Proof.
  unfold paginate. cbn [docs totalDocs]. split.
  - intros c Hin. apply In_page in Hin.
    apply In_sortDocs in Hin. apply filter_In in Hin. exact Hin.
  - rewrite length_sortDocs. reflexivity.
Qed.

Lemma filter_narrow {A} (p q : A -> bool) l :
  (forall x, p x = true -> q x = true) ->
  filter p (filter q l) = filter p l.
Proof.
  intros H. induction l as [| x l IH]; [reflexivity |].
  cbn [filter]. destruct (q x) eqn:Eq.
  - cbn [filter]. rewrite IH. reflexivity.
  - destruct (p x) eqn:Ep; [| exact IH].
    apply H in Ep. congruence.
Qed.

Lemma matches_userId q u c :
  q_userId q = Some u -> matches q c = true -> userId c = u.
Proof.
  unfold matches. intros ->. intros H.
  repeat (apply andb_true_iff in H; destruct H as [H ?]).
  apply String.eqb_eq. assumption.
Qed.

Lemma matches_category q k c :
  q_category q = Some k -> matches q c = true -> category c = k.
Proof.
  unfold matches. intros ->. intros H.
  repeat (apply andb_true_iff in H; destruct H as [H ?]).
  apply String.eqb_eq. assumption.
Qed.

Lemma stringClause_department d :
  d <> "" -> stringClause (Some d) = Some d.
Proof.
  intros H. unfold stringClause, Js.truthy.
  apply String.eqb_neq in H. rewrite H. reflexivity.
Qed.

(** The complaints a resident reported, and those of a department. *)
Definition reportedBy (u : User) (c : Complaint) : bool :=
  (userId c =? u_id u)%string.

Definition inDepartment (d : string) (c : Complaint) : bool :=
  (category c =? d)%string.

(** A resident's listing holds the resident's own complaints only,
    whatever the query string asks for. *)
Lemma listing_of_resident user p db pg :
  role user = "resident" ->
  Controller.getComplaints user p db = mkResponse 200 (Data pg) ->
  (forall c, In c (docs pg) -> In c db /\ userId c = u_id user)
  /\ totalDocs pg <= Z.of_nat (List.length (filter (reportedBy user) db)).
Proof.
  intros Hrole. unfold Controller.getComplaints, getComplaints,
    Controller.listFilters.
  rewrite Hrole. cbn [String.eqb Ascii.eqb Bool.eqb andb].
  destruct (Controller.commonDates p) as [from to].
  unfold listQuery. cbn [f_userId idClause idTruthy toObjectId].
  cbn [f_resourceId f_category f_status f_dateFrom f_dateTo].
  destruct (idClause _) as [e | r]; [discriminate |].
  intros H. injection H as <-.
  match goal with
  | |- context [paginate ?q ?a ?b ?f ?o db] =>
      destruct (paginate_sound q a b f o db) as [Hdocs Htotal];
      set (q0 := q) in *
  end.
  split.
  - intros c Hin. destruct (Hdocs c Hin) as [H1 H2]. split; [assumption |].
    apply (matches_userId q0); [reflexivity | assumption].
  - rewrite Htotal. apply Nat2Z.inj_le.
    rewrite <- (filter_narrow (matches q0) (reportedBy user)).
    + apply filter_length_le.
    + intros c Hc. unfold reportedBy. apply String.eqb_eq.
      apply (matches_userId q0); [reflexivity | assumption].
Qed.

(** The listing of a departmentAdmin with a department holds complaints of
    that category only. *)
Lemma listing_of_departmentAdmin user p db pg d :
  role user = "departmentAdmin" ->
  department user = Some d -> d <> "" ->
  Controller.getComplaints user p db = mkResponse 200 (Data pg) ->
  forall c, In c (docs pg) -> In c db /\ category c = d.
Proof.
  intros Hrole Hd Hne. unfold Controller.getComplaints, getComplaints,
    Controller.listFilters.
  rewrite Hrole, Hd. cbn [String.eqb Ascii.eqb Bool.eqb andb].
  destruct (Controller.commonDates p) as [from to].
  unfold listQuery.
  cbn [f_userId f_resourceId f_category f_status f_dateFrom f_dateTo].
  destruct (idClause (Controller.queryId _)) as [e | u]; [discriminate |].
  destruct (idClause _) as [e | r]; [discriminate |].
  rewrite (stringClause_department d Hne).
  intros H. injection H as <-. intros c Hin.
  match goal with
  | _ : In c (docs (paginate ?q ?a ?b ?f ?o db)) |- _ =>
      destruct (paginate_sound q a b f o db) as [Hdocs _];
      set (q0 := q) in *
  end.
  destruct (Hdocs c Hin) as [H1 H2]. split; [assumption |].
  apply (matches_category q0); [reflexivity | assumption].
Qed.

(** The statistics a resident gets are those of the resident's own
    complaints: the complaints of others do not enter any count. *)
Lemma stats_of_resident user p db :
  role user = "resident" ->
  Controller.getComplaintStats user p db
  = Controller.getComplaintStats user p (filter (reportedBy user) db).
Proof.
  intros Hrole. unfold Controller.getComplaintStats, getComplaintStats,
    Controller.statsFilters.
  rewrite Hrole. cbn [String.eqb Ascii.eqb Bool.eqb andb].
  destruct (Controller.commonDates p) as [from to].
  unfold statsQuery. cbn [f_userId idClause idTruthy toObjectId].
  cbn [f_resourceId f_category f_status f_dateFrom f_dateTo].
  destruct (idClause _) as [e | r]; [reflexivity |].
  rewrite filter_narrow; [reflexivity |].
  intros c Hc. unfold reportedBy. apply String.eqb_eq.
  eapply matches_userId; [| exact Hc]. reflexivity.
Qed.

(** The statistics of a departmentAdmin with a department are those of
    the department's complaints. *)
Lemma stats_of_departmentAdmin user p db d :
  role user = "departmentAdmin" ->
  department user = Some d -> d <> "" ->
  Controller.getComplaintStats user p db
  = Controller.getComplaintStats user p (filter (inDepartment d) db).
Proof.
  intros Hrole Hd Hne. unfold Controller.getComplaintStats, getComplaintStats,
    Controller.statsFilters.
  rewrite Hrole, Hd. cbn [String.eqb Ascii.eqb Bool.eqb andb].
  destruct (Controller.commonDates p) as [from to].
  unfold statsQuery.
  cbn [f_userId f_resourceId f_category f_status f_dateFrom f_dateTo].
  destruct (idClause (Controller.queryId _)) as [e | u]; [reflexivity |].
  destruct (idClause _) as [e | r]; [reflexivity |].
  rewrite (stringClause_department d Hne).
  rewrite filter_narrow; [reflexivity |].
  intros c Hc. unfold inDepartment. apply String.eqb_eq.
  eapply matches_category; [| exact Hc]. reflexivity.
Qed.

(** The category distribution a resident gets is that of the resident's
    own complaints. *)
Lemma distribution_of_resident user p db :
  role user = "resident" ->
  Controller.getCategoryDistribution user p db
  = Controller.getCategoryDistribution user p (filter (reportedBy user) db).
Proof.
  intros Hrole. unfold Controller.getCategoryDistribution,
    getCategoryDistribution, Controller.distributionFilters.
  rewrite Hrole. cbn [String.eqb Ascii.eqb Bool.eqb andb].
  destruct (Controller.commonDates p) as [from to].
  unfold distributionQuery. cbn [f_userId idClause idTruthy toObjectId].
  cbn [f_resourceId f_category f_status f_dateFrom f_dateTo].
  destruct (idClause _) as [e | r]; [reflexivity |].
  rewrite filter_narrow; [reflexivity |].
  intros c Hc. unfold reportedBy. apply String.eqb_eq.
  eapply matches_userId; [| exact Hc]. reflexivity.
Qed.

Definition noParams : Controller.ListParams :=
  Controller.mkListParams None None None None None None None None None None.

(** C3, the failing input.  Bob is the departmentAdmin of Electrical; the
    collection holds one Electrical and one Civil complaint.  His listing
    and his statistics leave the Civil complaint out, but his category
    distribution counts it. *)
Theorem distribution_ignores_department :
  role Sample.bob = "departmentAdmin"
  /\ department Sample.bob = Some "Electrical"
  /\ map category Sample.two = ["Electrical"; "Civil"]
  /\ (exists pg,
        Controller.getComplaints Sample.bob noParams Sample.two
        = mkResponse 200 (Data pg)
        /\ map category (docs pg) = ["Electrical"] /\ totalDocs pg = 1)
  /\ (exists st,
        Controller.getComplaintStats Sample.bob noParams Sample.two
        = mkResponse 200 (Data st) /\ total st = 1)
  /\ Controller.getCategoryDistribution Sample.bob noParams Sample.two
     = mkResponse 200 (Data [("Electrical", 1); ("Civil", 1)]).
Proof.
  split; [reflexivity |]. split; [reflexivity |]. split; [reflexivity |].
  split; [eexists; split; [vm_compute; reflexivity | split; reflexivity] |].
  split; [eexists; split; [vm_compute; reflexivity | reflexivity] |].
  reflexivity.
Qed.

(** ** Submission *)

Definition plumbingBody : Controller.CreateBody :=
  Controller.mkCreateBody (Some "b00000000000000000000001")
    (Some "Electrical") (Some "Plumbing") (Some "Tap is dripping") None.

Definition lightingBody : Controller.CreateBody :=
  Controller.mkCreateBody (Some "b00000000000000000000001")
    (Some "Electrical") (Some "Lighting") (Some "Tap is dripping") None.

(** C7, the claim as stated fails.  "Plumbing" is not among the
    subcategories of Electrical, yet the validators of the route raise no
    error for it and the request is answered exactly as the one with the
    proper subcategory "Lighting" is.  And that answer, on a body with
    nothing wrong, is not a created complaint: the collection stays
    empty. *)
Lemma submit_foreign_subcategory :
  (exists subs, subcategoriesOf "Electrical" = Some subs
                /\ ~ In "Plumbing" subs /\ In "Lighting" subs)
  /\ Routes.createValidators plumbingBody = []
  /\ Routes.createValidators lightingBody = []
  /\ run (Routes.post_complaint Sample.id1 plumbingBody Sample.alice)
       Sample.env []
     = run (Routes.post_complaint Sample.id1 lightingBody Sample.alice)
         Sample.env []
  /\ (exists r tr,
        run (Routes.post_complaint Sample.id1 lightingBody Sample.alice)
          Sample.env []
        = (inr r, [], tr)
        /\ code r = 500).
Proof.
  split.
  - eexists. split; [reflexivity |]. split.
    + cbn. intros H. repeat (destruct H as [H | H]; [discriminate |]).
      exact H.
    + cbn. auto.
  - split; [reflexivity |]. split; [reflexivity |].
    split; [reflexivity |].
    eexists. eexists. split; reflexivity.
Qed.

(** What the route refuses: more than two images, a description of more
    than 1000 characters, a category outside the three known ones, or a
    subcategory that is absent or empty. *)
Definition refusedBody (body : Controller.CreateBody) : Prop :=
  (exists imgs, Controller.b_images body = Some imgs
                /\ (2 < List.length imgs)%nat)
  \/ (exists d, Controller.b_description body = Some d
                /\ (1000 < String.length d)%nat)
  \/ ~ In (Controller.orEmpty (Controller.b_category body)) categoryEnum
  \/ Controller.b_subcategory body = None
  \/ Controller.b_subcategory body = Some "".

(** What its validators let through: the subcategory has only to be
    there. *)
Definition acceptedBody (body : Controller.CreateBody) : Prop :=
  (exists r, Controller.b_resourceId body = Some r /\ r <> "")
  /\ (exists k, Controller.b_category body = Some k /\ In k categoryEnum)
  /\ (exists s, Controller.b_subcategory body = Some s /\ s <> "")
  /\ (exists d, Controller.b_description body = Some d /\ d <> ""
                /\ (String.length d <= 1000)%nat)
  /\ (Controller.b_images body = None
      \/ exists imgs, Controller.b_images body = Some imgs
                      /\ (List.length imgs <= 2)%nat).

Lemma refused_has_errors body :
  refusedBody body -> Routes.createValidators body <> [].
Proof.
  intros Href Hnil. unfold Routes.createValidators in Hnil.
  repeat (apply app_eq_nil in Hnil; destruct Hnil as [? Hnil]).
  unfold Routes.failing in *.
  destruct Href as [(imgs & Hi & Hlen) | [(d & Hd & Hlen) | [Hc | Hs]]].
  - rewrite Hi in Hnil.
    destruct (List.length imgs <=? 2)%nat eqn:E; [| discriminate].
    apply Nat.leb_le in E. lia.
  - rewrite Hd in *. cbn [Controller.orEmpty] in *.
    destruct (String.length d <=? 1000)%nat eqn:E; [| discriminate].
    apply Nat.leb_le in E. lia.
  - destruct (existsb _ _) eqn:E; [| discriminate].
    apply existsb_eqb_In in E. contradiction.
  - unfold Routes.notEmpty, Js.truthy in *.
    destruct Hs as [Hs | Hs]; rewrite Hs in *; discriminate.
Qed.

Lemma accepted_has_no_errors body :
  acceptedBody body -> Routes.createValidators body = [].
Proof.
  intros ((r & Hr & Hrne) & (k & Hk & Hin) & (s & Hs & Hsne)
          & (d & Hd & Hdne & Hlen) & Himg).
  unfold Routes.createValidators, Routes.failing, Routes.notEmpty, Js.truthy.
  rewrite Hr, Hk, Hs, Hd. cbn [Controller.orEmpty].
  apply String.eqb_neq in Hrne, Hsne, Hdne. rewrite Hrne, Hsne, Hdne.
  apply existsb_eqb_In in Hin. unfold categoryEnum in Hin. rewrite Hin.
  apply Nat.leb_le in Hlen. rewrite Hlen. cbn [negb app].
  destruct Himg as [-> | (imgs & -> & Hl)]; [reflexivity |].
  apply Nat.leb_le in Hl. rewrite Hl. reflexivity.
Qed.

(** C7, amended.  The route answers 400, with nothing created and no
    effect at all, when the body has more than two images, a description
    over the length bound, an unknown category, or no subcategory.  The
    subcategory is not compared with the category's defined set: a body
    that names a resource, a known category, any non-empty subcategory, a
    description within the bound and at most two images raises no
    validation error, is handed to the service and is not answered 400. *)
Theorem post_complaint_validation env db oid body user :
  (refusedBody body ->
     exists p,
       run (Routes.post_complaint oid body user) env db
       = (inr (mkResponse 400 p), db, []))
  /\ (acceptedBody body ->
        Routes.createValidators body = []
        /\ run (Routes.post_complaint oid body user) env db
           = run (Controller.respond 201
                    (createComplaint oid
                       (mkComplaintData
                          (Controller.orEmpty (Controller.b_resourceId body))
                          (Controller.orEmpty (Controller.b_category body))
                          (Controller.orEmpty (Controller.b_subcategory body))
                          (Controller.orEmpty (Controller.b_description body))
                          (match Controller.b_images body with
                           | Some l => l
                           | None => []
                           end)) user)) env db
        /\ exists r db' tr,
             run (Routes.post_complaint oid body user) env db = (inr r, db', tr)
             /\ code r <> 400).
Proof.
  split.
  - intros Href. apply refused_has_errors in Href.
    unfold Routes.post_complaint, Controller.createComplaint.
    destruct (Routes.createValidators body) as [| e errs]; [contradiction |].
    eexists. reflexivity.
  - intros Hacc. pose proof (accepted_has_no_errors body Hacc) as Hnone.
    split; [exact Hnone |].
    assert (Hsame :
              run (Routes.post_complaint oid body user) env db
              = run (Controller.respond 201
                       (createComplaint oid
                          (mkComplaintData
                             (Controller.orEmpty (Controller.b_resourceId body))
                             (Controller.orEmpty (Controller.b_category body))
                             (Controller.orEmpty
                                (Controller.b_subcategory body))
                             (Controller.orEmpty
                                (Controller.b_description body))
                             (match Controller.b_images body with
                              | Some l => l
                              | None => []
                              end)) user)) env db).
    { unfold Routes.post_complaint, Controller.createComplaint.
      rewrite Hnone.
      destruct Hacc as (_ & _ & _ & _ & Himg).
      destruct Himg as [-> | (imgs & -> & Hl)]; [reflexivity |].
      replace (2 <? List.length imgs)%nat with false
        by (symmetry; apply Nat.ltb_ge; exact Hl).
      reflexivity. }
    split; [exact Hsame |].
    rewrite Hsame, run_respond, createComplaint_run.
    eexists. eexists. eexists. split; [reflexivity |]. discriminate.
Qed.

Lemma post_complaint_validation_witness :
  refusedBody
    (Controller.mkCreateBody (Some "b00000000000000000000001")
       (Some "Electrical") (Some "Lighting") (Some "Lamp is broken")
       (Some ["a.jpg"; "b.jpg"; "c.jpg"]))
  /\ acceptedBody plumbingBody
  /\ (exists p,
        run (Routes.post_complaint Sample.id2
               (Controller.mkCreateBody (Some "b00000000000000000000001")
                  (Some "Electrical") (Some "Lighting") (Some "Lamp is broken")
                  (Some ["a.jpg"; "b.jpg"; "c.jpg"])) Sample.alice)
          Sample.env Sample.submitted
        = (inr (mkResponse 400 p), Sample.submitted, []))
  /\ Routes.createValidators plumbingBody = [].
Proof.
  assert (Href : refusedBody
                   (Controller.mkCreateBody (Some "b00000000000000000000001")
                      (Some "Electrical") (Some "Lighting")
                      (Some "Lamp is broken")
                      (Some ["a.jpg"; "b.jpg"; "c.jpg"]))).
  { left. eexists. split; [reflexivity | cbn; lia]. }
  assert (Hacc : acceptedBody plumbingBody).
  { split; [eexists; split; [reflexivity | discriminate] |].
    split; [eexists; split; [reflexivity | cbn; auto] |].
    split; [eexists; split; [reflexivity | discriminate] |].
    split; [eexists; split; [reflexivity | split; [discriminate | cbn; lia]] |].
    left. reflexivity. }
  split; [exact Href |]. split; [exact Hacc |]. split.
  - exact (proj1 (post_complaint_validation Sample.env Sample.submitted
                    Sample.id2 _ Sample.alice) Href).
  - exact (proj1 (proj2 (post_complaint_validation Sample.env Sample.submitted
                           Sample.id2 plumbingBody Sample.alice) Hacc)).
Defined.

(** ** The complaint identifier *)

(** The identifier as the specification words it: [CMP-YY-MM-NNNN] with
    the two last digits of the year, the month from 01 to 12 and the
    sequence number on four digits. *)
Definition twoDigits (n : Z) : string :=
  String (Js.digit (n / 10)) (String (Js.digit n) "").

Definition fourDigits (n : Z) : string :=
  String (Js.digit (n / 1000)) (String (Js.digit (n / 100)) (twoDigits n)).

Definition specIdentifier (year month seq : Z) : string :=
  "CMP-" ++ twoDigits (year mod 100) ++ "-" ++ twoDigits month ++ "-"
    ++ fourDigits seq.

(** Created in the calendar month of [date]. *)
Definition createdInMonthOf (date : Date) (c : Complaint) : bool :=
  (getFullYear (createdAt c) =? getFullYear date)
  && (getMonth (createdAt c) =? getMonth date).

Lemma length_append (s t : string) :
  String.length (s ++ t) = (String.length s + String.length t)%nat.
Proof.
  induction s as [| a s IH]; cbn [append String.length]; [reflexivity |].
  rewrite IH. reflexivity.
Qed.

Lemma append_assoc' (s t u : string) : (s ++ t) ++ u = s ++ (t ++ u).
Proof.
  induction s as [| a s IH]; cbn [append]; [reflexivity |].
  rewrite IH. reflexivity.
Qed.

Lemma substring_suffix (s t : string) :
  substring (String.length s) (String.length t) (s ++ t) = t.
Proof.
  induction s as [| a s IH]; cbn [append String.length substring].
  - induction t as [| b t IHt]; cbn [String.length substring];
      [reflexivity |].
    rewrite IHt. reflexivity.
  - exact IH.
Qed.

Lemma slice_last2_app (s : string) (a b : ascii) :
  Js.slice_last2 (s ++ String a (String b "")) = String a (String b "").
Proof.
  unfold Js.slice_last2. rewrite length_append. cbn [String.length].
  replace (String.length s + 2 - 2)%nat with (String.length s) by lia.
  exact (substring_suffix s (String a (String b ""))).
Qed.

Lemma digits_acc fuel n acc :
  Js.digits fuel n acc = Js.digits fuel n "" ++ acc.
Proof.
  revert n acc. induction fuel as [| fuel IH]; intros n acc;
    cbn [Js.digits]; [reflexivity |].
  destruct (n <? 10); [reflexivity |].
  rewrite (IH (n / 10) (String (Js.digit n) acc)).
  rewrite (IH (n / 10) (String (Js.digit n) "")).
  rewrite append_assoc'. reflexivity.
Qed.

Lemma digits_last_two fuel n :
  10 <= n ->
  exists s, Js.digits (S (S fuel)) n "" = s ++ twoDigits n.
Proof.
  intros Hn. cbn [Js.digits].
  replace (n <? 10) with false by (symmetry; apply Z.ltb_ge; lia).
  destruct (n / 10 <? 10).
  - exists "". reflexivity.
  - rewrite digits_acc. eexists. reflexivity.
Qed.

Lemma digit_mod_100 n : Js.digit (n mod 100) = Js.digit n.
Proof.
  unfold Js.digit. replace ((n mod 100) mod 10) with (n mod 10);
    [reflexivity |].
  pose proof (Z.div_mod n 100 ltac:(lia)).
  pose proof (Z.mod_pos_bound n 100 ltac:(lia)).
  rewrite H at 1. replace (100 * (n / 100) + n mod 100)
    with (n mod 100 + (10 * (n / 100)) * 10) by lia.
  apply Z.mod_add. lia.
Qed.

Lemma digit_tens_mod_100 n : Js.digit (n mod 100 / 10) = Js.digit (n / 10).
Proof.
  unfold Js.digit. f_equal. f_equal. f_equal.
  pose proof (Z.div_mod n 100 ltac:(lia)).
  pose proof (Z.mod_pos_bound n 100 ltac:(lia)).
  rewrite H at 2.
  replace (100 * (n / 100) + n mod 100)
    with (n mod 100 + (10 * (n / 100)) * 10) by lia.
  rewrite Z.div_add by lia.
  replace (n mod 100 / 10 + 10 * (n / 100))
    with (n mod 100 / 10 + (n / 100) * 10) by lia.
  rewrite Z.mod_add by lia. reflexivity.
Qed.

(** [YY]: from year 10 on, the last two characters of the year are its
    last two digits. *)
Lemma year_two_digits y :
  10 <= y -> Js.slice_last2 (Js.toString y) = twoDigits (y mod 100).
Proof.
  intros Hy. unfold Js.toString.
  replace (y <? 0) with false by (symmetry; apply Z.ltb_ge; lia).
  assert (Hlog : 3 <= Z.log2 y).
  { apply (Z.log2_le_mono 8 y). lia. }
  destruct (Z.to_nat (Z.log2 y)) as [| fuel] eqn:E; [lia |].
  destruct (digits_last_two fuel y Hy) as [s Hs]. rewrite Hs.
  unfold twoDigits at 1. rewrite slice_last2_app.
  unfold twoDigits. rewrite digit_mod_100, digit_tens_mod_100. reflexivity.
Qed.

(** [MM]: the month index plus one, on two digits. *)
Lemma month_two_digits m :
  0 <= m < 12 -> Js.padStart 2 (Js.toString (m + 1)) = twoDigits (m + 1).
Proof.
  intros Hm.
  assert (H : m = 0 \/ m = 1 \/ m = 2 \/ m = 3 \/ m = 4 \/ m = 5 \/ m = 6
              \/ m = 7 \/ m = 8 \/ m = 9 \/ m = 10 \/ m = 11) by lia.
  repeat (destruct H as [-> | H]; [reflexivity |]). subst m. reflexivity.
Qed.

Lemma digits_small fuel n acc :
  (n <? 10) = true -> Js.digits (S fuel) n acc = String (Js.digit n) acc.
Proof. intros H. cbn [Js.digits]. rewrite H. reflexivity. Qed.

Lemma digits_large fuel n acc :
  (n <? 10) = false ->
  Js.digits (S fuel) n acc = Js.digits fuel (n / 10) (String (Js.digit n) acc).
Proof. intros H. cbn [Js.digits]. rewrite H. reflexivity. Qed.

Lemma digit_zero n : n = 0 -> Js.digit n = "0"%char.
Proof. intros ->. reflexivity. Qed.

Lemma fuel_of_log2 n k :
  2 ^ Z.of_nat k <= n ->
  exists f, S (Z.to_nat (Z.log2 n)) = (S k + f)%nat.
Proof.
  intros H.
  assert (Hl : Z.of_nat k <= Z.log2 n).
  { rewrite <- (Z.log2_pow2 (Z.of_nat k)) by lia. apply Z.log2_le_mono. exact H. }
  exists (Z.to_nat (Z.log2 n) - k)%nat. lia.
Qed.

(** [NNNN]: a sequence number below 10000, on four digits. *)
Lemma sequence_four_digits n :
  0 <= n <= 9999 -> Js.padStart 4 (Js.toString n) = fourDigits n.
Proof.
  intros Hn. unfold Js.toString, fourDigits, twoDigits.
  replace (n <? 0) with false by (symmetry; apply Z.ltb_ge; lia).
  assert (H100 : n / 100 = n / 10 / 10) by (rewrite Z.div_div by lia; reflexivity).
  assert (H1000 : n / 1000 = n / 10 / 10 / 10)
    by (rewrite !Z.div_div by lia; reflexivity).
  destruct (Z_lt_le_dec n 10) as [H1 | H1].
  - rewrite digits_small by (apply Z.ltb_lt; lia).
    rewrite (digit_zero (n / 1000)), (digit_zero (n / 100)),
      (digit_zero (n / 10)) by (apply Z.div_small; lia).
    reflexivity.
  - destruct (fuel_of_log2 n 1 ltac:(cbn; lia)) as [f1 Hf1].
    rewrite Hf1. cbn [Nat.add]. rewrite digits_large by (apply Z.ltb_ge; lia).
    destruct (Z_lt_le_dec n 100) as [H2 | H2].
    + rewrite digits_small
        by (apply Z.ltb_lt; apply Z.div_lt_upper_bound; lia).
      rewrite (digit_zero (n / 1000)), (digit_zero (n / 100))
        by (apply Z.div_small; lia).
      reflexivity.
    + destruct (fuel_of_log2 n 2 ltac:(cbn; lia)) as [f2 Hf2].
      assert (Hf : f1 = S f2) by lia. subst f1.
      rewrite digits_large
        by (apply Z.ltb_ge; apply Z.div_le_lower_bound; lia).
      destruct (Z_lt_le_dec n 1000) as [H3 | H3].
      * rewrite digits_small
          by (apply Z.ltb_lt; rewrite <- H100;
              apply Z.div_lt_upper_bound; lia).
        rewrite (digit_zero (n / 1000)) by (apply Z.div_small; lia).
        rewrite H100. reflexivity.
      * destruct (fuel_of_log2 n 3 ltac:(cbn; lia)) as [f3 Hf3].
        assert (Hf : f2 = S f3) by lia. subst f2.
        rewrite digits_large
          by (apply Z.ltb_ge; rewrite <- H100;
              apply Z.div_le_lower_bound; lia).
        rewrite digits_small
          by (apply Z.ltb_lt; rewrite <- H1000;
              apply Z.div_lt_upper_bound; lia).
        rewrite H100, H1000. reflexivity.
Qed.

Lemma getMonth_range d : 0 <= getMonth d < 12.
Proof. unfold getMonth. apply Z.mod_pos_bound. lia. Qed.

Lemma months_split d : months d = getFullYear d * 12 + getMonth d.
Proof.
  unfold getFullYear, getMonth.
  pose proof (Z.div_mod (months d) 12 ltac:(lia)). lia.
Qed.

(** The range the hook counts over is the calendar month of [date]. *)
Lemma month_range date d :
  Date_leb (firstOfMonth (getFullYear date) (getMonth date)) d
  && Date_ltb d (firstOfMonth (getFullYear date) (getMonth date + 1))
  = (getFullYear d =? getFullYear date) && (getMonth d =? getMonth date).
Proof.
  unfold Date_leb, Date_ltb, firstOfMonth. cbn [months millis].
  pose proof (months_split date) as Hd. pose proof (months_split d) as Hd'.
  pose proof (getMonth_range date). pose proof (getMonth_range d).
  replace (getFullYear date * 12 + (getMonth date + 1))
    with (months date + 1) by lia.
  replace (getFullYear date * 12 + getMonth date) with (months date) by lia.
  replace (millis d <? 0)%N with false
    by (symmetry; apply N.ltb_ge; lia).
  replace (0 <=? millis d)%N with true
    by (symmetry; apply N.leb_le; lia).
  rewrite andb_false_r, andb_true_r, orb_false_r.
  destruct (months date <? months d) eqn:E1;
    destruct (months date =? months d) eqn:E2;
    destruct (months d <? months date + 1) eqn:E3;
    destruct (getFullYear d =? getFullYear date) eqn:E4;
    destruct (getMonth d =? getMonth date) eqn:E5;
    try reflexivity; exfalso;
    repeat match goal with
           | H : (_ <? _) = true |- _ => apply Z.ltb_lt in H
           | H : (_ <? _) = false |- _ => apply Z.ltb_ge in H
           | H : (_ =? _) = true |- _ => apply Z.eqb_eq in H
           | H : (_ =? _) = false |- _ => apply Z.eqb_neq in H
           end; lia.
Qed.

Lemma monthCount_calendar date db :
  monthCount date db
  = Z.of_nat (List.length (filter (createdInMonthOf date) db)).
Proof.
  unfold monthCount, countCreatedBetween. f_equal. f_equal.
  apply filter_ext. intros c. apply month_range.
Qed.

Lemma formatComplaintId_spec date count :
  10 <= getFullYear date -> 0 <= count < 9999 ->
  formatComplaintId date count
  = specIdentifier (getFullYear date) (getMonth date + 1) (count + 1).
Proof.
  intros Hy Hc. unfold formatComplaintId, specIdentifier. cbv zeta.
  rewrite (year_two_digits _ Hy), (month_two_digits _ (getMonth_range date)),
    sequence_four_digits by lia.
  reflexivity.
Qed.

(** The identifier the hook gives a new document, for years from 10 on
    and fewer than 9999 complaints in the month: [CMP-YY-MM-NNNN] with
    the two last digits of the year, the month and one more than the
    number of complaints created in that calendar month; nothing else of
    the document changes, and a document that is not new is left alone. *)
Lemma hook_identifier_format c env st :
  10 <= getFullYear (now env) ->
  Z.of_nat (List.length (filter (createdInMonthOf (now env)) (committed st)))
  < 9999 ->
  exists c',
    preSave true c env st = (inr c', st)
    /\ complaintId c'
       = specIdentifier (getFullYear (now env)) (getMonth (now env) + 1)
           (Z.of_nat
              (List.length
                 (filter (createdInMonthOf (now env)) (committed st))) + 1)
    /\ c' = set_complaintId (complaintId c') c
    /\ preSave false c env st = (inr c, st).
Proof.
  intros Hy Hn. rewrite preSave_new_run. eexists. split; [reflexivity |].
  cbn [complaintId set_complaintId]. split.
  - rewrite monthCount_calendar. apply formatComplaintId_spec; lia.
  - split; reflexivity.
Qed.

Lemma hook_identifier_format_witness :
  exists c',
    preSave true (newComplaint Sample.id2 Sample.leak Sample.carol
                    Sample.may2025) Sample.env
      (mkStore Sample.submitted [] [])
    = (inr c', mkStore Sample.submitted [] [])
    /\ complaintId c' = "CMP-25-05-0002".
Proof.
  destruct (hook_identifier_format
              (newComplaint Sample.id2 Sample.leak Sample.carol Sample.may2025)
              Sample.env (mkStore Sample.submitted [] []))
    as (c' & Hrun & Hid & _).
  - vm_compute. discriminate.
  - vm_compute. reflexivity.
  - exists c'. split; [exact Hrun |]. rewrite Hid. reflexivity.
Defined.

(** C8, the failing input: any submission, here a well-formed one on the
    empty collection.  [createComplaint] builds the document without an
    identifier; [save] validates it, [complaintId] being required, before
    the hook that would supply the identifier has run.  So the call throws,
    whatever the data, nothing is stored and no identifier is assigned,
    though the hook, run on that very document, builds the identifier the
    claim describes. *)
Theorem creation_assigns_no_identifier :
  (forall env db oid data user,
     run (createComplaint oid data user) env db
     = failed (ValidationFailed "complaintId") db)
  /\ run (Routes.post_complaint Sample.id1 lightingBody Sample.alice)
       Sample.env []
     = (inr (mkResponse 500
               (Failure "Complaint validation failed: complaintId")),
        [], [StartTransaction; AbortTransaction])
  /\ exists c',
       preSave true
         (newComplaint Sample.id1 Sample.lamp Sample.alice Sample.may2025)
         Sample.env (mkStore [] [] [])
       = (inr c', mkStore [] [] [])
       /\ complaintId c' = "CMP-25-05-0001"
       /\ validate c' = None.
Proof.
  split; [intros; apply createComplaint_run |].
  split; [reflexivity |].
  eexists. split; [vm_compute; reflexivity |]. split; reflexivity.
Qed.

(** ** What no operation changes *)

(** No two complaints of the collection share an identifier. *)
Definition uniqueIdentifiers (db : list Complaint) : Prop :=
  NoDup (map complaintId db).

(** The part of a complaint that is fixed when it is stored. *)
Definition identity (c : Complaint)
    : ObjectId * string * ObjectId * string * string * string * string
      * list string * Date :=
  (_id c, complaintId c, userId c, resourceId c, category c, subcategory c,
   description c, images c, createdAt c).

(** What one operation can do to the collection: nothing, or replace one
    document by one with the same identity. *)
Inductive Change (db db' : list Complaint) : Prop :=
| Unchanged : db' = db -> Change db db'
| Replaced (pre post : list Complaint) (c c1 : Complaint) :
    db = (pre ++ c :: post)%list ->
    db' = (pre ++ c1 :: post)%list ->
    identity c1 = identity c ->
    Change db db'.

Lemma replaced_by_lookup db id c c1 :
  lookup db id = inr c ->
  identity c1 = identity c ->
  Change db (upsert c1 db).
Proof.
  intros Hl Hi. apply lookup_found in Hl.
  destruct Hl as (_ & Hc & _ & Hf). rewrite <- Hc in Hf.
  assert (H1 : _id c1 = _id c) by (unfold identity in Hi; congruence).
  destruct (upsert_replace db c c1 Hf H1) as (pre & post & Hdb & Hdb' & _).
  exact (Replaced db _ pre post c c1 Hdb Hdb' Hi).
Qed.

Lemma exec_change env db op :
  Change db (snd (fst (run (exec op) env db))).
Proof.
  destruct op as [oid data user | i a actor | i s actor | i n actor
                 | i r cm actor | i res actor]; cbn [exec].
  - rewrite createComplaint_run. apply Unchanged. reflexivity.
  - rewrite assignComplaint_run.
    destruct (lookup db i) as [e | c] eqn:Hl; [apply Unchanged; reflexivity |].
    destruct (lookupUser _ _ _) as [e | [agency |]];
      try (apply Unchanged; reflexivity).
    cbv zeta. destruct (validate _); [apply Unchanged; reflexivity |].
    cbn [fst snd]. apply (replaced_by_lookup db i c); auto.
  - rewrite assignToStaff_run.
    destruct (lookup db i) as [e | c] eqn:Hl; [apply Unchanged; reflexivity |].
    destruct (lookupUser _ _ _) as [e | [staff |]];
      try (apply Unchanged; reflexivity).
    cbv zeta. destruct (validate _); [apply Unchanged; reflexivity |].
    cbn [fst snd]. apply (replaced_by_lookup db i c); auto.
  - rewrite resolveComplaint_run.
    destruct (lookup db i) as [e | c] eqn:Hl; [apply Unchanged; reflexivity |].
    destruct (negb _); [apply Unchanged; reflexivity |].
    cbv zeta. destruct (validate _); [apply Unchanged; reflexivity |].
    cbn [fst snd]. apply (replaced_by_lookup db i c); auto.
  - rewrite submitFeedback_run.
    destruct (lookup db i) as [e | c] eqn:Hl; [apply Unchanged; reflexivity |].
    destruct (negb _); [apply Unchanged; reflexivity |].
    cbv zeta. destruct (validate _); [apply Unchanged; reflexivity |].
    cbn [fst snd]. apply (replaced_by_lookup db i c); auto.
    unfold feedbackStep, escalateStep.
    destruct (3 <=? r); [| destruct (findAppellateAuthority (users env))];
      reflexivity.
  - rewrite finalizeComplaint_run.
    destruct (lookup db i) as [e | c] eqn:Hl; [apply Unchanged; reflexivity |].
    destruct (negb _); [apply Unchanged; reflexivity |].
    cbv zeta. destruct (validate _); [apply Unchanged; reflexivity |].
    cbn [fst snd]. apply (replaced_by_lookup db i c); auto.
Qed.

Lemma change_keeps_identity db db' :
  Change db db' -> map identity db' = map identity db.
Proof.
  intros [-> | pre post c c1 -> -> Hi]; [reflexivity |].
  rewrite !map_app. cbn [map]. rewrite Hi. reflexivity.
Qed.

(** Whatever requests are served, the collection keeps its complaints, in
    order, each with its [_id], identifier, reporter, resource, category,
    subcategory, description, images and creation date: no operation
    adds or removes a complaint or rewrites its identifier, so identifiers
    that were pairwise distinct stay so. *)
Lemma replay_keeps_identity env ops db :
  map identity (replay env ops db) = map identity db
  /\ map complaintId (replay env ops db) = map complaintId db
  /\ List.length (replay env ops db) = List.length db
  /\ (uniqueIdentifiers db -> uniqueIdentifiers (replay env ops db)).
Proof.
  assert (H : map identity (replay env ops db) = map identity db).
  { revert db. induction ops as [| op ops IH]; intros db; cbn [replay].
    - reflexivity.
    - rewrite IH. apply change_keeps_identity. apply exec_change. }
  assert (Hc : map complaintId (replay env ops db) = map complaintId db).
  { clear H. revert db. induction ops as [| op ops IH]; intros db;
      cbn [replay].
    - reflexivity.
    - rewrite IH.
      destruct (exec_change env db op) as [-> | pre post c c1 -> -> Hi];
        [reflexivity |].
      rewrite !map_app. cbn [map].
      replace (complaintId c1) with (complaintId c)
        by (unfold identity in Hi; congruence).
      reflexivity. }
  split; [exact H |]. split; [exact Hc |]. split.
  - rewrite <- (length_map identity), H, length_map. reflexivity.
  - unfold uniqueIdentifiers. rewrite Hc. auto.
Qed.

(** ** Notifications and the transaction *)

Inductive EffectKind := KStart | KSave | KNotify | KCommit | KAbort.

Definition kind (e : Effect) : EffectKind :=
  match e with
  | StartTransaction => KStart
  | Saved _ => KSave
  | Notified _ _ _ _ _ | NotifyFailed _ _ => KNotify
  | CommitTransaction => KCommit
  | AbortTransaction => KAbort
  end.

(** The recipients of the notification effects of a trace, in order. *)
Definition recipients (tr : list Effect) : list (option ObjectId) :=
  flat_map (fun e => match e with
                     | Notified r _ _ _ _ | NotifyFailed r _ => [r]
                     | _ => []
                     end) tr.

(** The complaint an operation addresses; a submission addresses none. *)
Definition target (op : Op) : option string :=
  match op with
  | Submit _ _ _ => None
  | AssignToAgency id _ _ | AssignStaff id _ _ | Resolve id _ _
  | GiveFeedback id _ _ _ | Finalize id _ _ => Some id
  end.

(** C9, the claim as stated fails: [assignComplaint] sends its two
    notifications after the save but before the transaction is committed,
    and [submitFeedback] sends them before it even saves. *)
Lemma notifications_precede_commit :
  map kind
    (snd (run (assignComplaint Sample.id1 (u_id Sample.bob) (u_id Sample.root))
            Sample.env Sample.submitted))
  = [KStart; KSave; KNotify; KNotify; KCommit]
  /\ map kind
       (snd (run (submitFeedback Sample.id1 1 (Some "still broken")
                    (u_id Sample.alice)) Sample.env Sample.resolved1))
     = [KStart; KNotify; KNotify; KSave; KCommit].
Proof. split; reflexivity. Qed.

(** The effects of a successful operation on a stored complaint, by kind,
    in the order of the source: where the save, the notifications and the
    commit stand. *)
Definition expectedKinds (us : list User) (op : Op) : list EffectKind :=
  match op with
  | Submit _ _ _ => []
  | AssignToAgency _ _ _ | Finalize _ _ _ =>
      [KStart; KSave; KNotify; KNotify; KCommit]
  | AssignStaff _ _ _ | Resolve _ _ _ => [KStart; KSave; KNotify; KCommit]
  | GiveFeedback _ r _ _ =>
      if 3 <=? r then [KStart; KNotify; KSave; KCommit]
      else match findAppellateAuthority us with
           | Some _ => [KStart; KNotify; KNotify; KSave; KCommit]
           | None => [KStart; KNotify; KSave; KCommit]
           end
  end.

(** Whom it notifies, in order; [c1] is the complaint it returns. *)
Definition expectedRecipients (us : list User) (op : Op) (c1 : Complaint)
    : list (option ObjectId) :=
  match op with
  | Submit _ _ _ => []
  | AssignToAgency _ agencyId _ => [Some agencyId; Some (userId c1)]
  | AssignStaff _ staffId _ => [Some staffId]
  | Resolve _ _ _ => [Some (userId c1)]
  | GiveFeedback _ r _ _ =>
      if 3 <=? r then [assignedAgency c1]
      else match findAppellateAuthority us with
           | Some appellate => [Some (u_id appellate); assignedAgency c1]
           | None => [assignedAgency c1]
           end
  | Finalize _ _ _ => [Some (userId c1); assignedAgency c1]
  end.

Lemma kind_notifyEvent env recipient title text ref :
  kind (notifyEvent env recipient title text ref) = KNotify.
Proof. unfold notifyEvent. destruct (delivers env recipient title); reflexivity. Qed.

Lemma recipients_notifyEvent env r title text ref :
  recipients [notifyEvent env r title text ref] = [r].
Proof. unfold notifyEvent. destruct (delivers env r title); reflexivity. Qed.

Lemma recipients_app a b :
  recipients (a ++ b) = (recipients a ++ recipients b)%list.
Proof. unfold recipients. apply flat_map_app. Qed.

Lemma recipients_cons_notify env r title text ref tr :
  recipients (notifyEvent env r title text ref :: tr) = r :: recipients tr.
Proof.
  change (?x :: tr) with ([x] ++ tr)%list.
  rewrite recipients_app, recipients_notifyEvent. reflexivity.
Qed.

Lemma kind_feedbackEvents env r c1 :
  map kind (feedbackEvents env r c1)
  = if 3 <=? r then [KNotify]
    else match findAppellateAuthority (users env) with
         | Some _ => [KNotify; KNotify]
         | None => [KNotify]
         end.
Proof.
  unfold feedbackEvents. destruct (3 <=? r).
  - cbn [map]. rewrite kind_notifyEvent. reflexivity.
  - destruct (findAppellateAuthority (users env)); cbn [map app];
      rewrite ?kind_notifyEvent; reflexivity.
Qed.

Lemma recipients_feedbackEvents env r c1 :
  recipients (feedbackEvents env r c1)
  = if 3 <=? r then [assignedAgency c1]
    else match findAppellateAuthority (users env) with
         | Some appellate => [Some (u_id appellate); assignedAgency c1]
         | None => [assignedAgency c1]
         end.
Proof.
  unfold feedbackEvents. destruct (3 <=? r).
  - apply recipients_notifyEvent.
  - destruct (findAppellateAuthority (users env)); cbn [app];
      rewrite ?recipients_cons_notify; reflexivity.
Qed.

Lemma In_upsert c1 db : In c1 (upsert c1 db).
Proof.
  induction db as [| d db IH]; cbn [upsert]; [left; reflexivity |].
  destruct (_id d =? _id c1)%string; [left; reflexivity | right; exact IH].
Qed.

(** The shape of a successful run.  Only an operation on a stored
    complaint succeeds, and its effects are exactly those of
    [expectedKinds], sent to [expectedRecipients]. *)
Lemma success_shape env db op c1 db' tr :
  run (exec op) env db = (inr c1, db', tr) ->
  target op <> None
  /\ map kind tr = expectedKinds (users env) op
  /\ recipients tr = expectedRecipients (users env) op c1
  /\ In (Saved c1) tr
  /\ In c1 db'.
Proof.
  intros Hrun.
  destruct op as [oid data user | i a actor | i s actor | i n actor
                 | i r cm actor | i res actor];
    cbn [exec target expectedKinds expectedRecipients] in *.
  - rewrite createComplaint_run in Hrun. discriminate.
  - rewrite assignComplaint_run in Hrun.
    destruct (lookup db i) as [e | c]; [discriminate |].
    destruct (lookupUser _ _ _) as [e | [agency |]]; try discriminate.
    cbv zeta in Hrun. destruct (validate _); [discriminate |].
    injection Hrun as <- <- <-.
    split; [discriminate |].
    split; [cbn [map kind]; rewrite !kind_notifyEvent; reflexivity |].
    split; [| split; [right; left; reflexivity | apply In_upsert]].
    change (recipients (StartTransaction :: Saved ?c :: ?rest))
      with (recipients rest).
    rewrite !recipients_cons_notify. reflexivity.
  - rewrite assignToStaff_run in Hrun.
    destruct (lookup db i) as [e | c]; [discriminate |].
    destruct (lookupUser _ _ _) as [e | [staff |]]; try discriminate.
    cbv zeta in Hrun. destruct (validate _); [discriminate |].
    injection Hrun as <- <- <-.
    split; [discriminate |].
    split; [cbn [map kind]; rewrite !kind_notifyEvent; reflexivity |].
    split; [| split; [right; left; reflexivity | apply In_upsert]].
    change (recipients (StartTransaction :: Saved ?c :: ?rest))
      with (recipients rest).
    rewrite !recipients_cons_notify. reflexivity.
  - rewrite resolveComplaint_run in Hrun.
    destruct (lookup db i) as [e | c]; [discriminate |].
    destruct (negb _); [discriminate |].
    cbv zeta in Hrun. destruct (validate _); [discriminate |].
    injection Hrun as <- <- <-.
    split; [discriminate |].
    split; [cbn [map kind]; rewrite !kind_notifyEvent; reflexivity |].
    split; [| split; [right; left; reflexivity | apply In_upsert]].
    change (recipients (StartTransaction :: Saved ?c :: ?rest))
      with (recipients rest).
    rewrite !recipients_cons_notify. reflexivity.
  - rewrite submitFeedback_run in Hrun.
    destruct (lookup db i) as [e | c]; [discriminate |].
    destruct (negb _); [discriminate |].
    cbv zeta in Hrun. destruct (validate _); [discriminate |].
    injection Hrun as <- <- <-.
    set (c1 := feedbackStep (now env) (users env) r cm actor c).
    split; [discriminate |].
    split.
    { cbn [app map kind]. rewrite map_app, kind_feedbackEvents.
      destruct (3 <=? r); [| destruct (findAppellateAuthority (users env))];
        reflexivity. }
    split.
    { change (recipients (StartTransaction :: ?rest)) with (recipients rest).
      rewrite recipients_app, recipients_feedbackEvents.
      change (recipients [Saved c1; CommitTransaction]) with (@nil (option ObjectId)).
      rewrite app_nil_r. reflexivity. }
    split; [| apply In_upsert].
    right. apply in_or_app. right. left. reflexivity.
  - rewrite finalizeComplaint_run in Hrun.
    destruct (lookup db i) as [e | c]; [discriminate |].
    destruct (negb _); [discriminate |].
    cbv zeta in Hrun. destruct (validate _); [discriminate |].
    injection Hrun as <- <- <-.
    split; [discriminate |].
    split; [cbn [map kind]; rewrite !kind_notifyEvent; reflexivity |].
    split; [| split; [right; left; reflexivity | apply In_upsert]].
    change (recipients (StartTransaction :: Saved ?c :: ?rest))
      with (recipients rest).
    rewrite !recipients_cons_notify. reflexivity.
Qed.

(** Whether the notifications are delivered changes neither the result
    nor the collection nor the order of the effects. *)
Lemma delivery_is_irrelevant op us t d1 d2 db :
  fst (run (exec op) (mkEnv us t d1) db)
  = fst (run (exec op) (mkEnv us t d2) db)
  /\ map kind (snd (run (exec op) (mkEnv us t d1) db))
     = map kind (snd (run (exec op) (mkEnv us t d2) db)).
Proof.
  destruct op as [oid data user | i a actor | i s actor | i n actor
                 | i r cm actor | i res actor]; cbn [exec].
  - rewrite !createComplaint_run. split; reflexivity.
  - rewrite !assignComplaint_run. cbn [now users].
    destruct (lookup db i) as [e | c]; [split; reflexivity |].
    destruct (lookupUser _ _ _) as [e | [agency |]];
      try (split; reflexivity).
    cbv zeta. destruct (validate _); [split; reflexivity |].
    cbn [fst snd map]. rewrite !kind_notifyEvent. split; reflexivity.
  - rewrite !assignToStaff_run. cbn [now users].
    destruct (lookup db i) as [e | c]; [split; reflexivity |].
    destruct (lookupUser _ _ _) as [e | [staff |]];
      try (split; reflexivity).
    cbv zeta. destruct (validate _); [split; reflexivity |].
    cbn [fst snd map]. rewrite !kind_notifyEvent. split; reflexivity.
  - rewrite !resolveComplaint_run. cbn [now users].
    destruct (lookup db i) as [e | c]; [split; reflexivity |].
    destruct (negb _); [split; reflexivity |].
    cbv zeta. destruct (validate _); [split; reflexivity |].
    cbn [fst snd map]. rewrite !kind_notifyEvent. split; reflexivity.
  - rewrite !submitFeedback_run. cbn [now users].
    destruct (lookup db i) as [e | c]; [split; reflexivity |].
    destruct (negb _); [split; reflexivity |].
    cbv zeta. destruct (validate _); cbn [fst snd map app];
      (split; [reflexivity |]);
      rewrite !map_app, !kind_feedbackEvents; reflexivity.
  - rewrite !finalizeComplaint_run. cbn [now users].
    destruct (lookup db i) as [e | c]; [split; reflexivity |].
    destruct (negb _); [split; reflexivity |].
    cbv zeta. destruct (validate _); [split; reflexivity |].
    cbn [fst snd map]. rewrite !kind_notifyEvent. split; reflexivity.
Qed.

(** C9, amended.  Every operation that succeeds dispatches its
    notifications inside the transaction, before the commit, which is its
    last effect: [assignComplaint] and [finalizeComplaint] save and then
    send two notifications, [assignToStaff] and [resolveComplaint] save
    and then send one, and [submitFeedback] sends its one or two
    notifications before it saves; the recipients are those of
    [expectedRecipients].  A run that throws commits nothing and leaves
    the collection as it was.  A notification that cannot be delivered is
    logged by [sendNotification] in its place and nothing more: the
    result, the collection afterwards and the order of the effects are the
    same whether deliveries succeed or fail. *)
Theorem notifications_inside_transaction op us t d1 d2 db :
  (fst (run (exec op) (mkEnv us t d1) db)
   = fst (run (exec op) (mkEnv us t d2) db)
   /\ map kind (snd (run (exec op) (mkEnv us t d1) db))
      = map kind (snd (run (exec op) (mkEnv us t d2) db)))
  /\ (forall c1 db' tr,
        run (exec op) (mkEnv us t d1) db = (inr c1, db', tr) ->
        target op <> None
        /\ map kind tr = expectedKinds us op
        /\ recipients tr = expectedRecipients us op c1
        /\ In (Saved c1) tr
        /\ In c1 db')
  /\ (forall e db' tr,
        run (exec op) (mkEnv us t d1) db = (inl e, db', tr) ->
        db' = db /\ ~ In CommitTransaction tr).
Proof.
  split; [apply delivery_is_irrelevant |]. split.
  - intros c1 db' tr Hrun. exact (success_shape _ _ _ _ _ _ Hrun).
  - intros e db' tr. apply failure_commits_nothing.
Qed.

Definition assigningTrace : list Effect :=
  Eval vm_compute in
    snd (run (assignComplaint Sample.id1 (u_id Sample.bob) (u_id Sample.root))
           Sample.envDown Sample.submitted).

Lemma assigning_run :
  run (exec (AssignToAgency Sample.id1 (u_id Sample.bob) (u_id Sample.root)))
    (mkEnv (users Sample.env) (now Sample.env) (fun _ _ => false))
    Sample.submitted
  = (inr Sample.c_assigned, Sample.assigned1, assigningTrace).
Proof. vm_compute. reflexivity. Qed.

(** With the notification channel down, the assignment is committed all
    the same, and the two failures are logged after the save and before
    the commit. *)
Lemma notifications_inside_transaction_witness :
  map kind assigningTrace = [KStart; KSave; KNotify; KNotify; KCommit]
  /\ recipients assigningTrace
     = [Some (u_id Sample.bob); Some (u_id Sample.alice)]
  /\ In Sample.c_assigned Sample.assigned1.
Proof.
  destruct (proj1 (proj2 (notifications_inside_transaction
                            (AssignToAgency Sample.id1 (u_id Sample.bob)
                               (u_id Sample.root))
                            (users Sample.env) (now Sample.env)
                            (fun _ _ => false) (fun _ _ => true)
                            Sample.submitted))
              Sample.c_assigned Sample.assigned1 assigningTrace assigning_run)
    as (_ & Hk & Hr & _ & Hin).
  split; [exact Hk |]. split; [exact Hr | exact Hin].
Defined.

(** ** Further properties of the listing and reporting code *)

Lemma listing_of_resident_witness :
  role Sample.carol = "resident"
  /\ exists pg,
       Controller.getComplaints Sample.carol
         (Controller.mkListParams (Some (u_id Sample.alice)) None None None
            None None None None None None) Sample.two
       = mkResponse 200 (Data pg)
       /\ forall c, In c (docs pg) ->
                    In c Sample.two /\ userId c = u_id Sample.carol.
Proof.
  split; [reflexivity |]. eexists. split; [vm_compute; reflexivity |].
  apply (listing_of_resident Sample.carol
           (Controller.mkListParams (Some (u_id Sample.alice)) None None None
              None None None None None None) Sample.two _ eq_refl eq_refl).
Defined.

Lemma listing_of_departmentAdmin_witness :
  role Sample.bob = "departmentAdmin"
  /\ department Sample.bob = Some "Electrical"
  /\ exists pg,
       Controller.getComplaints Sample.bob noParams Sample.two
       = mkResponse 200 (Data pg)
       /\ forall c, In c (docs pg) ->
                    In c Sample.two /\ category c = "Electrical".
Proof.
  split; [reflexivity |]. split; [reflexivity |].
  eexists. split; [vm_compute; reflexivity |].
  apply (listing_of_departmentAdmin Sample.bob noParams Sample.two _
           "Electrical" eq_refl eq_refl);
    [discriminate | reflexivity].
Defined.

Lemma stats_of_resident_witness :
  role Sample.carol = "resident"
  /\ Controller.getComplaintStats Sample.carol noParams Sample.two
     = Controller.getComplaintStats Sample.carol noParams
         (filter (reportedBy Sample.carol) Sample.two).
Proof.
  split; [reflexivity |].
  exact (stats_of_resident Sample.carol noParams Sample.two eq_refl).
Defined.

Lemma stats_of_departmentAdmin_witness :
  role Sample.bob = "departmentAdmin"
  /\ department Sample.bob = Some "Electrical"
  /\ Controller.getComplaintStats Sample.bob noParams Sample.two
     = Controller.getComplaintStats Sample.bob noParams
         (filter (inDepartment "Electrical") Sample.two).
Proof.
  split; [reflexivity |]. split; [reflexivity |].
  apply (stats_of_departmentAdmin Sample.bob noParams Sample.two "Electrical"
           eq_refl eq_refl).
  discriminate.
Defined.

Lemma distribution_of_resident_witness :
  role Sample.carol = "resident"
  /\ Controller.getCategoryDistribution Sample.carol noParams Sample.two
     = Controller.getCategoryDistribution Sample.carol noParams
         (filter (reportedBy Sample.carol) Sample.two).
Proof.
  split; [reflexivity |].
  exact (distribution_of_resident Sample.carol noParams Sample.two eq_refl).
Defined.

Definition closingTrace : list Effect :=
  Eval vm_compute in
    snd (run (exec (GiveFeedback Sample.id1 5 (Some "Thanks")
                      (u_id Sample.alice))) Sample.env Sample.resolved1).

Lemma closing_run :
  run (exec (GiveFeedback Sample.id1 5 (Some "Thanks") (u_id Sample.alice)))
    Sample.env Sample.resolved1
  = (inr Sample.c_closed, Sample.closed1, closingTrace).
Proof. vm_compute. reflexivity. Qed.

Lemma guarded_operations_follow_graph_witness :
  lookup Sample.resolved1 Sample.id1 = inr Sample.c_resolved
  /\ (status Sample.c_closed = status Sample.c_resolved
      \/ graph (status Sample.c_resolved) (status Sample.c_closed) = true).
Proof.
  split; [reflexivity |].
  exact (guarded_operations_follow_graph Sample.env Sample.resolved1
           (GiveFeedback Sample.id1 5 (Some "Thanks") (u_id Sample.alice))
           Sample.id1 Sample.c_resolved Sample.c_closed Sample.closed1
           closingTrace eq_refl eq_refl closing_run).
Defined.

(** The query string of a caller that filters by neither user nor
    category. *)
Definition withoutUserAndCategory (p : Controller.ListParams)
    : Controller.ListParams :=
  Controller.mkListParams None (Controller.p_resourceId p) None
    (Controller.p_status p) (Controller.p_dateFrom p) (Controller.p_dateTo p)
    (Controller.p_page p) (Controller.p_limit p) (Controller.p_sortField p)
    (Controller.p_sortOrder p).

(** The controller sets [filters.assignedStaff] for maintenance staff, but
    the service builds its query without reading it: a maintenanceStaff
    caller gets the listing a superAdmin gets who filters by neither user
    nor category, whoever the complaints are assigned to. *)
Lemma listing_of_maintenanceStaff user admin p db :
  role user = "maintenanceStaff" ->
  role admin = "superAdmin" ->
  Controller.getComplaints user p db
  = Controller.getComplaints admin (withoutUserAndCategory p) db.
Proof.
  intros Hu Ha. unfold Controller.getComplaints, getComplaints,
    Controller.listFilters, withoutUserAndCategory, Controller.commonDates.
  rewrite Hu, Ha. cbn [String.eqb Ascii.eqb Bool.eqb andb].
  cbn [Controller.p_userId Controller.p_resourceId Controller.p_category
       Controller.p_status Controller.p_dateFrom Controller.p_dateTo
       Controller.p_page Controller.p_limit Controller.p_sortField
       Controller.p_sortOrder].
  destruct (Controller.p_dateFrom p), (Controller.p_dateTo p); reflexivity.
Qed.

Lemma listing_of_maintenanceStaff_witness :
  role Sample.dave = "maintenanceStaff"
  /\ role Sample.root = "superAdmin"
  /\ map assignedStaff Sample.two = [None; None]
  /\ exists pg,
       Controller.getComplaints Sample.dave noParams Sample.two
       = mkResponse 200 (Data pg)
       /\ List.length (docs pg) = 2%nat.
Proof.
  split; [reflexivity |]. split; [reflexivity |]. split; [reflexivity |].
  rewrite (listing_of_maintenanceStaff Sample.dave Sample.root noParams
             Sample.two eq_refl eq_refl).
  eexists. split; [vm_compute; reflexivity | reflexivity].
Defined.

Lemma length_by_status (l : list Complaint) :
  Z.of_nat (List.length l)
  = countStatus pending l + countStatus assigned l + countStatus resolved l
    + countStatus closed l + countStatus escalated l
    + countStatus finalResolution l.
Proof.
  unfold countStatus. induction l as [| c l IH]; [reflexivity |].
  cbn [List.length filter]. rewrite Nat2Z.inj_succ, IH.
  destruct (status c); cbn [Status_eqb List.length];
    rewrite ?Nat2Z.inj_succ; lia.
Qed.

(** In the statistics the six per-status counts add up to the total: every
    matched complaint is counted under exactly one status. *)
Lemma stats_total_is_sum filters db st :
  getComplaintStats filters db = inr st ->
  total st
  = n_pending st + n_assigned st + n_resolved st + n_closed st
    + n_escalated st + n_finalResolution st
  /\ 0 <= total st <= Z.of_nat (List.length db).
Proof.
  unfold getComplaintStats. destruct (statsQuery filters) as [e | q];
    [discriminate |].
  intros H. injection H as <-.
  pose proof (filter_length_le (matches q) db) as Hle.
  destruct (filter (matches q) db) as [| c l] eqn:E.
  - cbn. lia.
  - unfold groupStats.
    cbn [total n_pending n_assigned n_resolved n_closed n_escalated
         n_finalResolution].
    split; [apply length_by_status | lia].
Qed.

Definition sampleStats : Stats :=
  Eval vm_compute in
    match getComplaintStats noFilters Sample.two with
    | inr st => st
    | inl _ => mkStats 0 0 0 0 0 0 0 None
    end.

Lemma stats_total_is_sum_witness :
  getComplaintStats noFilters Sample.two = inr sampleStats
  /\ total sampleStats
     = n_pending sampleStats + n_assigned sampleStats + n_resolved sampleStats
       + n_closed sampleStats + n_escalated sampleStats
       + n_finalResolution sampleStats.
Proof.
  split; [reflexivity |].
  exact (proj1 (stats_total_is_sum noFilters Sample.two sampleStats eq_refl)).
Defined.

(** The count of a category in the rows of a distribution. *)
Definition rowCount (k : string) (rows : list (string * Z)) : Z :=
  match find (fun row => (fst row =? k)%string) rows with
  | Some row => snd row
  | None => 0
  end.

Lemma rowCount_bump k k' rows :
  rowCount k' (bump k rows)
  = rowCount k' rows + (if (k =? k')%string then 1 else 0).
Proof.
  unfold rowCount. induction rows as [| [k0 n] rows IH]; cbn [bump find fst snd].
  - destruct (k =? k')%string; reflexivity.
  - destruct (k0 =? k)%string eqn:E0; cbn [find fst snd].
    + apply String.eqb_eq in E0. subst k0.
      destruct (k =? k')%string; [reflexivity | lia].
    + destruct (k0 =? k')%string eqn:E1.
      * apply String.eqb_eq in E1. subst k0. rewrite String.eqb_sym, E0. lia.
      * exact IH.
Qed.

Lemma keys_bump k k' rows :
  In k' (map fst (bump k rows)) <-> k' = k \/ In k' (map fst rows).
Proof.
  induction rows as [| [k0 n] rows IH]; cbn [bump map fst In].
  - intuition.
  - destruct (k0 =? k)%string eqn:E0; cbn [map fst In].
    + apply String.eqb_eq in E0. subst k0. intuition.
    + rewrite IH. intuition.
Qed.

Lemma keys_bump_NoDup k rows :
  NoDup (map fst rows) -> NoDup (map fst (bump k rows)).
Proof.
  induction rows as [| [k0 n] rows IH]; cbn [bump map fst]; intros Hnd.
  - constructor; [intros [] | constructor].
  - inversion Hnd as [| ? ? Hnin Hrest]; subst.
    destruct (k0 =? k)%string eqn:E0; cbn [map fst].
    + constructor; assumption.
    + constructor; [| apply IH; assumption].
      intros Hin. apply keys_bump in Hin. destruct Hin as [-> | Hin].
      * rewrite String.eqb_refl in E0. discriminate.
      * contradiction.
Qed.

Definition categoryCount (k : string) (l : list Complaint) : Z :=
  Z.of_nat (List.length (filter (fun c => (category c =? k)%string) l)).

Lemma grouping_invariant l rows k :
  NoDup (map fst rows) ->
  let rows' := fold_left (fun rows c => bump (category c) rows) l rows in
  NoDup (map fst rows')
  /\ rowCount k rows' = rowCount k rows + categoryCount k l
  /\ (In k (map fst rows') <-> In k (map fst rows) \/ In k (map category l)).
Proof.
  revert rows. induction l as [| c l IH]; intros rows Hnd; cbn [fold_left].
  - unfold categoryCount. cbn. repeat split; try assumption; try lia;
      intuition.
  - destruct (IH (bump (category c) rows) (keys_bump_NoDup _ _ Hnd))
      as (H1 & H2 & H3).
    split; [exact H1 |]. split.
    + rewrite H2, rowCount_bump. unfold categoryCount. cbn [filter].
      destruct (category c =? k)%string; cbn [List.length];
        rewrite ?Nat2Z.inj_succ; lia.
    + rewrite H3, keys_bump. cbn [map In]. intuition.
Qed.

Lemma rowCount_In k n rows :
  NoDup (map fst rows) -> In (k, n) rows -> rowCount k rows = n.
Proof.
  unfold rowCount. induction rows as [| [k0 n0] rows IH]; intros Hnd Hin;
    [destruct Hin |].
  inversion Hnd as [| ? ? Hnin Hrest]; subst. cbn [find fst snd].
  destruct Hin as [Heq | Hin].
  - injection Heq as -> ->. rewrite String.eqb_refl. reflexivity.
  - destruct (k0 =? k)%string eqn:E.
    + apply String.eqb_eq in E. subst k0. exfalso. apply Hnin.
      apply in_map_iff. exists (k, n). split; [reflexivity | exact Hin].
    + apply IH; assumption.
Qed.

(** The category distribution has one row per category that occurs among
    the matched complaints, no category twice, and the count of a row is
    the number of matched complaints of that category. *)
Lemma distribution_counts filters q db rows :
  distributionQuery filters = inr q ->
  getCategoryDistribution filters db = inr rows ->
  NoDup (map fst rows)
  /\ (forall k n, In (k, n) rows ->
        n = categoryCount k (filter (matches q) db) /\ 0 < n)
  /\ (forall c, In c db -> matches q c = true ->
        In (category c, categoryCount (category c) (filter (matches q) db))
          rows).
Proof.
  intros Hq. unfold getCategoryDistribution. rewrite Hq.
  intros H. injection H as <-. unfold groupByCategory.
  set (l := filter (matches q) db).
  assert (Hinv : forall k,
             NoDup (map fst (fold_left (fun rows c => bump (category c) rows)
                               l []))
             /\ rowCount k (fold_left (fun rows c => bump (category c) rows)
                              l [])
                = categoryCount k l
             /\ (In k (map fst (fold_left (fun rows c => bump (category c) rows)
                                  l []))
                 <-> In k (map category l))).
  { intros k. destruct (grouping_invariant l [] k (NoDup_nil _))
      as (H1 & H2 & H3).
    split; [exact H1 |]. split; [exact H2 |].
    rewrite H3. cbn [map In]. intuition. }
  set (rows := fold_left (fun rows c => bump (category c) rows) l []) in *.
  assert (Hpos : forall k, In k (map category l) -> 0 < categoryCount k l).
  { intros k Hin. apply in_map_iff in Hin. destruct Hin as (c & <- & Hc).
    unfold categoryCount.
    assert (Hf : In c (filter (fun c0 => (category c0 =? category c)%string) l)).
    { apply filter_In. split; [exact Hc | apply String.eqb_refl]. }
    destruct (filter _ l); [destruct Hf | cbn [List.length]; lia]. }
  split; [apply (Hinv ""%string) |]. split.
  - intros k n Hin. destruct (Hinv k) as (Hnd & Hcount & Hkeys).
    rewrite <- Hcount, (rowCount_In k n rows Hnd Hin). split; [reflexivity |].
    rewrite <- (rowCount_In k n rows Hnd Hin), Hcount. apply Hpos.
    apply Hkeys. apply in_map_iff. exists (k, n). split; [reflexivity | exact Hin].
  - intros c Hc Hm. destruct (Hinv (category c)) as (Hnd & Hcount & Hkeys).
    assert (Hk : In (category c) (map fst rows)).
    { apply Hkeys. apply in_map. apply filter_In. split; assumption. }
    apply in_map_iff in Hk. destruct Hk as ([k n] & Hfst & Hin).
    cbn [fst] in Hfst. subst k.
    rewrite <- Hcount, (rowCount_In _ n rows Hnd Hin). exact Hin.
Qed.

Definition allQuery : Query := mkQuery None None None None None.

Lemma distribution_counts_witness :
  distributionQuery noFilters = inr allQuery
  /\ getCategoryDistribution noFilters Sample.two
     = inr [("Electrical", 1); ("Civil", 1)]
  /\ NoDup (map fst [("Electrical", 1); ("Civil", 1)]).
Proof.
  split; [reflexivity |]. split; [reflexivity |].
  exact (proj1 (distribution_counts noFilters allQuery Sample.two
                  [("Electrical", 1); ("Civil", 1)] eq_refl eq_refl)).
Defined.

(** ** Further properties of the lifecycle operations *)

Definition actorOf (op : Op) : ObjectId :=
  match op with
  | Submit _ _ user => u_id user
  | AssignToAgency _ _ a | AssignStaff _ _ a | Resolve _ _ a
  | GiveFeedback _ _ _ a | Finalize _ _ a => a
  end.

(** The history is append-only: a successful operation on a stored
    complaint keeps the entries the complaint had and appends exactly one,
    stamped with the clock, naming the actor and carrying the status the
    complaint has after the operation. *)
Lemma history_grows_by_one env db op id c1 db' tr :
  target op = Some id ->
  run (exec op) env db = (inr c1, db', tr) ->
  exists c e,
    lookup db id = inr c
    /\ history c1 = (history c ++ [e])%list
    /\ h_status e = status c1
    /\ updatedBy e = actorOf op
    /\ timestamp e = now env.
Proof.
  intros Ht Hrun.
  destruct op as [oid data user | i a actor | i s actor | i n actor
                 | i r cm actor | i res actor];
    cbn [exec target actorOf] in *; try discriminate;
    injection Ht as ->.
  - rewrite assignComplaint_run in Hrun.
    destruct (lookup db id) as [e | c]; [discriminate |].
    destruct (lookupUser _ _ _) as [e | [agency |]]; try discriminate.
    cbv zeta in Hrun. destruct (validate _); [discriminate |].
    injection Hrun as <- _ _. exists c. eexists.
    split; [reflexivity |]. split; [reflexivity |]. repeat split.
  - rewrite assignToStaff_run in Hrun.
    destruct (lookup db id) as [e | c]; [discriminate |].
    destruct (lookupUser _ _ _) as [e | [staff |]]; try discriminate.
    cbv zeta in Hrun. destruct (validate _); [discriminate |].
    injection Hrun as <- _ _. exists c. eexists.
    split; [reflexivity |]. split; [reflexivity |]. repeat split.
  - rewrite resolveComplaint_run in Hrun.
    destruct (lookup db id) as [e | c]; [discriminate |].
    destruct (negb _); [discriminate |].
    cbv zeta in Hrun. destruct (validate _); [discriminate |].
    injection Hrun as <- _ _. exists c. eexists.
    split; [reflexivity |]. split; [reflexivity |]. repeat split.
  - rewrite submitFeedback_run in Hrun.
    destruct (lookup db id) as [e | c]; [discriminate |].
    destruct (negb _); [discriminate |].
    cbv zeta in Hrun. destruct (validate _); [discriminate |].
    injection Hrun as <- _ _. unfold feedbackStep, escalateStep.
    destruct (3 <=? r); [| destruct (findAppellateAuthority (users env))];
      exists c; eexists;
      (split; [reflexivity |]); (split; [reflexivity |]); repeat split.
  - rewrite finalizeComplaint_run in Hrun.
    destruct (lookup db id) as [e | c]; [discriminate |].
    destruct (negb _); [discriminate |].
    cbv zeta in Hrun. destruct (validate _); [discriminate |].
    injection Hrun as <- _ _. exists c. eexists.
    split; [reflexivity |]. split; [reflexivity |]. repeat split.
Qed.

Lemma history_grows_by_one_witness :
  exists c e,
    lookup Sample.resolved1 Sample.id1 = inr c
    /\ history Sample.c_closed = (history c ++ [e])%list
    /\ h_status e = status Sample.c_closed
    /\ updatedBy e = u_id Sample.alice
    /\ timestamp e = now Sample.env.
Proof.
  exact (history_grows_by_one Sample.env Sample.resolved1
           (GiveFeedback Sample.id1 5 (Some "Thanks") (u_id Sample.alice))
           Sample.id1 Sample.c_closed Sample.closed1 closingTrace
           eq_refl closing_run).
Defined.

(** Assignment, resolution and satisfied feedback in a row close the
    complaint: the three operations compose, each finding the status the
    one before left, and the history gains the three entries in order. *)
Lemma lifecycle_to_closed env db id c agencyId a1 notes0 a2 r cm a3 :
  lookup db id = inr c ->
  validate c = None ->
  approvedAs ["departmentAdmin"; "maintenanceStaff"] (users env) agencyId ->
  3 <= r <= 5 ->
  exists c3 e1 e2 e3,
    lookup (replay env [AssignToAgency id agencyId a1; Resolve id notes0 a2;
                        GiveFeedback id r cm a3] db) id = inr c3
    /\ status c3 = closed
    /\ assignedAgency c3 = Some (canonicalId agencyId)
    /\ resolutionNotes c3 = notes0
    /\ rating (feedback c3) = Some r
    /\ closedAt c3 = Some (now env)
    /\ history c3 = (history c ++ [e1; e2; e3])%list
    /\ map h_status [e1; e2; e3] = [assigned; resolved; closed]
    /\ map updatedBy [e1; e2; e3] = [a1; a2; a3].
Proof.
  intros Hl Hv Ha Hr. apply lookupUser_approved in Ha.
  destruct Ha as (agency & Hu & _).
  cbn [replay exec].
  rewrite assignComplaint_run, Hl, Hu. cbv zeta.
  rewrite validate_assignStep, Hv. cbn [fst snd].
  set (c1 := assignStep (now env) agencyId agency a1 c).
  assert (Hl1 : lookup (upsert c1 db) id = inr c1)
    by (apply (lookup_upsert _ _ _ _ Hl); reflexivity).
  rewrite resolveComplaint_run, Hl1.
  change (status c1) with assigned. cbn [Status_eqb negb]. cbv zeta.
  rewrite validate_resolveStep. unfold c1 at 1.
  rewrite validate_assignStep, Hv. cbn [fst snd].
  set (c2 := resolveStep (now env) notes0 a2 c1).
  assert (Hl2 : lookup (upsert c2 (upsert c1 db)) id = inr c2)
    by (apply (lookup_upsert _ _ _ _ Hl1); reflexivity).
  assert (Hv2 : validate c2 = None).
  { unfold c2. rewrite validate_resolveStep. unfold c1.
    rewrite validate_assignStep. exact Hv. }
  rewrite submitFeedback_run, Hl2.
  change (status c2) with resolved. cbn [Status_eqb negb]. cbv zeta.
  rewrite (validate_feedbackStep _ _ _ _ _ _ Hv2 (conj (Z.le_trans 1 3 r
             ltac:(lia) (proj1 Hr)) (proj2 Hr))).
  cbn [fst snd]. unfold feedbackStep.
  replace (3 <=? r) with true by (symmetry; apply Z.leb_le; lia).
  eexists. eexists. eexists. eexists.
  split; [apply (lookup_upsert _ _ _ _ Hl2); reflexivity |].
  split; [reflexivity |]. split; [reflexivity |]. split; [reflexivity |].
  split; [reflexivity |]. split; [reflexivity |].
  split; [cbn [closeStep history_push history set_closedAt set_status
               set_feedback c2 resolveStep set_resolutionNotes set_resolvedAt
               c1 assignStep set_assignedAt set_assignedAgency];
          rewrite <- !app_assoc; reflexivity |].
  split; reflexivity.
Qed.

Lemma lifecycle_to_closed_witness :
  lookup Sample.submitted Sample.id1 = inr Sample.c_submitted
  /\ validate Sample.c_submitted = None
  /\ approvedAs ["departmentAdmin"; "maintenanceStaff"] (users Sample.env)
       (u_id Sample.bob)
  /\ exists c3,
       lookup (replay Sample.env
                 [AssignToAgency Sample.id1 (u_id Sample.bob) (u_id Sample.root);
                  Resolve Sample.id1 (Some "Lamp replaced") (u_id Sample.bob);
                  GiveFeedback Sample.id1 5 (Some "Thanks") (u_id Sample.alice)]
                 Sample.submitted) Sample.id1 = inr c3
       /\ status c3 = closed.
Proof.
  assert (Ha : approvedAs ["departmentAdmin"; "maintenanceStaff"]
                 (users Sample.env) (u_id Sample.bob)).
  { split; [reflexivity |]. exists Sample.bob. repeat split; cbn; auto. }
  split; [reflexivity |]. split; [reflexivity |]. split; [exact Ha |].
  destruct (lifecycle_to_closed Sample.env Sample.submitted Sample.id1
              Sample.c_submitted (u_id Sample.bob) (u_id Sample.root)
              (Some "Lamp replaced") (u_id Sample.bob) 5 (Some "Thanks")
              (u_id Sample.alice) eq_refl eq_refl Ha ltac:(lia))
    as (c3 & e1 & e2 & e3 & Hl3 & Hs & _).
  exists c3. split; [exact Hl3 | exact Hs].
Defined.

(** Dissatisfied feedback followed by the final resolution: the complaint
    ends in [finalResolution] with the escalation reason, the appellate
    authority's text and both timestamps recorded, and no later resolve,
    feedback or final resolution is accepted. *)
Lemma escalation_to_finalResolution env db id c r cm a1 res a2 :
  lookup db id = inr c ->
  validate c = None ->
  status c = resolved ->
  1 <= r < 3 ->
  exists c2 e1 e2,
    lookup (replay env [GiveFeedback id r cm a1; Finalize id res a2] db) id
    = inr c2
    /\ status c2 = finalResolution
    /\ reason (escalation c2)
       = Some (Js.or_else cm "User not satisfied with resolution")
    /\ finalResolutionText (escalation c2) = Some res
    /\ escalatedAt (escalation c2) = Some (now env)
    /\ finalResolvedAt (escalation c2) = Some (now env)
    /\ closedAt c2 = Some (now env)
    /\ history c2 = (history c ++ [e1; e2])%list
    /\ map h_status [e1; e2] = [escalated; finalResolution]
    /\ forall env' op,
         match op with
         | Resolve i _ _ | GiveFeedback i _ _ _ | Finalize i _ _ => i = id
         | _ => False
         end ->
         exists e,
           run (exec op) env'
             (replay env [GiveFeedback id r cm a1; Finalize id res a2] db)
           = failed e
               (replay env [GiveFeedback id r cm a1; Finalize id res a2] db)
           /\ InvalidState e.
Proof.
  intros Hl Hv Hs Hr. cbn [replay exec].
  assert (Hr' : 1 <= r <= 5) by lia.
  pose proof (validate_feedbackStep (now env) (users env) r cm a1 c Hv Hr')
    as Hv1.
  rewrite submitFeedback_run, Hl, Hs. cbn [Status_eqb negb]. cbv zeta.
  rewrite Hv1. cbn [fst snd].
  set (c1 := feedbackStep (now env) (users env) r cm a1 c) in *.
  assert (Hc1 : _id c1 = _id c /\ status c1 = escalated
                /\ reason (escalation c1)
                   = Some (Js.or_else cm "User not satisfied with resolution")
                /\ escalatedAt (escalation c1) = Some (now env)
                /\ exists e1, history c1 = (history c ++ [e1])%list
                              /\ h_status e1 = escalated).
  { unfold c1, feedbackStep, escalateStep.
    replace (3 <=? r) with false by (symmetry; apply Z.leb_gt; lia).
    destruct (findAppellateAuthority (users env));
      repeat split; eexists; split; reflexivity. }
  destruct Hc1 as (Hid1 & Hs1 & Hreason & Hat & e1 & Hh1 & He1).
  assert (Hl1 : lookup (upsert c1 db) id = inr c1)
    by (apply (lookup_upsert _ _ _ _ Hl); exact Hid1).
  rewrite finalizeComplaint_run, Hl1, Hs1. cbn [Status_eqb negb]. cbv zeta.
  rewrite validate_finalizeStep, Hv1. cbn [fst snd].
  set (c2 := finalizeStep (now env) res a2 c1).
  assert (Hl2 : lookup (upsert c2 (upsert c1 db)) id = inr c2)
    by (apply (lookup_upsert _ _ _ _ Hl1); reflexivity).
  exists c2, e1. eexists.
  split; [exact Hl2 |]. split; [reflexivity |].
  split; [exact Hreason |]. split; [reflexivity |].
  split; [exact Hat |]. split; [reflexivity |]. split; [reflexivity |].
  split.
  { unfold c2. cbn [finalizeStep history_push history set_closedAt
                    set_escalation set_status].
    rewrite Hh1, <- app_assoc. reflexivity. }
  split; [cbn [map]; rewrite He1; reflexivity |].
  intros env' op Hop.
  destruct op as [oid data user | i a actor | i s actor | i n actor
                 | i r' cm' actor | i res' actor]; try contradiction;
    subst i; cbn [exec].
  - rewrite resolveComplaint_run, Hl2. eexists.
    split; [reflexivity | unfold InvalidState; auto].
  - rewrite submitFeedback_run, Hl2. eexists.
    split; [reflexivity | unfold InvalidState; auto].
  - rewrite finalizeComplaint_run, Hl2. eexists.
    split; [reflexivity | unfold InvalidState; auto].
Qed.

Lemma escalation_to_finalResolution_witness :
  lookup Sample.resolved1 Sample.id1 = inr Sample.c_resolved
  /\ validate Sample.c_resolved = None
  /\ status Sample.c_resolved = resolved
  /\ exists c2,
       lookup (replay Sample.env
                 [GiveFeedback Sample.id1 1 (Some "still broken")
                    (u_id Sample.alice);
                  Finalize Sample.id1 "repaired" (u_id Sample.root)]
                 Sample.resolved1) Sample.id1 = inr c2
       /\ status c2 = finalResolution
       /\ reason (escalation c2) = Some "still broken".
Proof.
  split; [reflexivity |]. split; [reflexivity |]. split; [reflexivity |].
  destruct (escalation_to_finalResolution Sample.env Sample.resolved1
              Sample.id1 Sample.c_resolved 1 (Some "still broken")
              (u_id Sample.alice) "repaired" (u_id Sample.root)
              eq_refl eq_refl eq_refl ltac:(lia))
    as (c2 & e1 & e2 & Hl2 & Hs & Hreason & _).
  exists c2. split; [exact Hl2 |]. split; [exact Hs | exact Hreason].
Defined.

(** ** utils/notificationHelper: bulk notifications *)

(** [sendBulkNotification]: one [sendNotification] per user id, in order,
    each outcome kept beside its id.  The [catch] around the loop only
    logs and rethrows. *)
Fixpoint sendBulkNotification (userIds : list ObjectId)
    (title text type0 : string) (ref : ObjectId) : M (list (ObjectId * bool)) :=
  match userIds with
  | [] => ret []
  | userId0 :: rest =>
      result <- sendNotification (Some userId0) title text type0 ref ;;
      results <- sendBulkNotification rest title text type0 ref ;;
      ret ((userId0, result) :: results)
  end.

(** [notifyByRole]: every approved user of the role; answers how many. *)
Definition notifyByRole (role0 title text type0 : string) (ref : ObjectId)
    : M Z :=
  us <- getUsers ;;
  let userIds := map u_id (approvedWithRole role0 us) in
  sendBulkNotification userIds title text type0 ref ;;
  ret (Z.of_nat (List.length userIds)).

(** [User.find({ department, status: "approved",
    role: { $in: ["departmentAdmin", "maintenanceStaff"] } })]. *)
Definition approvedStaffOf (dept : string) (us : list User) : list User :=
  filter (fun u => match department u with
                   | Some d => (d =? dept)%string
                   | None => false
                   end
                   && (u_status u =? "approved")%string
                   && existsb (String.eqb (role u))
                        ["departmentAdmin"; "maintenanceStaff"]) us.

(** [notifyByDepartment]: the approved departmentAdmins and
    maintenanceStaff of the department; answers how many. *)
Definition notifyByDepartment (dept title text type0 : string) (ref : ObjectId)
    : M Z :=
  us <- getUsers ;;
  let userIds := map u_id (approvedStaffOf dept us) in
  sendBulkNotification userIds title text type0 ref ;;
  ret (Z.of_nat (List.length userIds)).

Lemma sendNotification_any recipient title text type0 ref env st :
  exists ev,
    sendNotification recipient title text type0 ref env st
    = (inr (delivers env recipient title),
       mkStore (committed st) (staged st) (trace st ++ [ev]))
    /\ recipients [ev] = [recipient]
    /\ kind ev = KNotify.
Proof.
  unfold sendNotification, bind, emit, ret.
  destruct (delivers env recipient title); eexists; repeat split.
Qed.

Lemma sendBulkNotification_run userIds title text type0 ref env st :
  exists evs,
    sendBulkNotification userIds title text type0 ref env st
    = (inr (map (fun i => (i, delivers env (Some i) title)) userIds),
       mkStore (committed st) (staged st) (trace st ++ evs))
    /\ recipients evs = map Some userIds
    /\ map kind evs = map (fun _ => KNotify) userIds.
Proof.
  revert st. induction userIds as [| i rest IH]; intros st.
  - exists []. cbn [sendBulkNotification map]. unfold ret.
    rewrite app_nil_r. destruct st; repeat split.
  - cbn [sendBulkNotification]. unfold bind at 1.
    destruct (sendNotification_any (Some i) title text type0 ref env st)
      as (ev & -> & Hrec1 & Hkind1).
    unfold bind at 1.
    match goal with
    | |- context [sendBulkNotification rest title text type0 ref env ?s] =>
        destruct (IH s) as (evs & -> & Hrec & Hkind)
    end.
    exists (ev :: evs). cbn [committed staged trace map ret].
    unfold ret. rewrite <- app_assoc. cbn [app].
    split; [reflexivity |]. split.
    + change (ev :: evs) with ([ev] ++ evs)%list.
      rewrite recipients_app, Hrec1, Hrec. reflexivity.
    + rewrite Hkind1, Hkind. reflexivity.
Qed.

(** [notifyByRole] cannot fail and never touches the complaints: it sends
    one notification to each approved user of the role, in the order of
    the user collection, and answers their number, whether or not the
    deliveries succeed. *)
Lemma notifyByRole_counts role0 title text type0 ref env db :
  exists tr,
    run (notifyByRole role0 title text type0 ref) env db
    = (inr (Z.of_nat (List.length (approvedWithRole role0 (users env)))),
       db, tr)
    /\ recipients tr
       = map (fun u => Some (u_id u)) (approvedWithRole role0 (users env))
    /\ Z.of_nat (List.length tr)
       = Z.of_nat (List.length (approvedWithRole role0 (users env)))
    /\ forall u, In u (approvedWithRole role0 (users env)) <->
                 In u (users env) /\ role u = role0
                 /\ u_status u = "approved".
Proof.
  unfold run, notifyByRole. unfold bind at 1. unfold getUsers at 1.
  unfold bind at 1.
  destruct (sendBulkNotification_run
              (map u_id (approvedWithRole role0 (users env))) title text
              type0 ref env (mkStore db [] []))
    as (evs & -> & Hrec & Hkind).
  cbn [committed staged trace app]. unfold ret.
  exists evs. rewrite length_map. split; [reflexivity |].
  split; [rewrite Hrec, map_map; reflexivity |]. split.
  - rewrite <- (length_map kind evs), Hkind, !length_map. reflexivity.
  - intros u. unfold approvedWithRole. rewrite filter_In, andb_true_iff,
      !String.eqb_eq. tauto.
Qed.

(** [notifyByDepartment]: the same for the approved departmentAdmins and
    maintenanceStaff of one department. *)
Lemma notifyByDepartment_counts dept title text type0 ref env db :
  exists tr,
    run (notifyByDepartment dept title text type0 ref) env db
    = (inr (Z.of_nat (List.length (approvedStaffOf dept (users env)))),
       db, tr)
    /\ recipients tr
       = map (fun u => Some (u_id u)) (approvedStaffOf dept (users env))
    /\ forall u, In u (approvedStaffOf dept (users env)) <->
                 In u (users env) /\ department u = Some dept
                 /\ u_status u = "approved"
                 /\ (role u = "departmentAdmin"
                     \/ role u = "maintenanceStaff").
Proof.
  unfold run, notifyByDepartment. unfold bind at 1. unfold getUsers at 1.
  unfold bind at 1.
  destruct (sendBulkNotification_run
              (map u_id (approvedStaffOf dept (users env))) title text
              type0 ref env (mkStore db [] []))
    as (evs & -> & Hrec & Hkind).
  cbn [committed staged trace app]. unfold ret.
  exists evs. rewrite length_map. split; [reflexivity |].
  split; [rewrite Hrec, map_map; reflexivity |].
  intros u. unfold approvedStaffOf. rewrite filter_In, !andb_true_iff,
    String.eqb_eq, existsb_eqb_In. cbn [In].
  destruct (department u) as [d |].
  - rewrite String.eqb_eq. split.
    + intros (H1 & (-> & H2) & H3). intuition.
    + intros (H1 & H2 & H3 & H4). injection H2 as ->. intuition.
  - split.
    + intros (_ & (H & _) & _). discriminate.
    + intros (_ & H & _). discriminate.
Qed.
